(** * create-chrome-extension: the generator script [src/index.ts]

    The program is one asynchronous [main] function: it asks a fixed
    series of questions, validates the answers, and then writes a project
    skeleton (source files, [manifest.json], optionally [package.json], and
    [TODO.md]) below a fresh directory.

    The embedding follows the script top to bottom.
    - The answers of the prompt library are an input record ([Answers]);
      a prompt yields a value or the library's cancel symbol.
    - What the script reads from the file system ([fs.existsSync],
      [fs.readFileSync]) is an input record too ([Env]).
    - What it does to the file system is a trace of [fs_op] events, threaded
      by a small state monad ([Script]); every [fs] call is taken to succeed.
    - [process.exit] ends the run with a [status].
    - The [manifest] object the script mutates is an association list in
      insertion order, passed from block to block.
    - Paths are kept relative to the extension directory [extDir]: the
      script builds every path as [path.join(extDir, ...)] from literal
      segments. *)

From Stdlib Require Import String Ascii List ZArith Bool Lia.
Import ListNotations.
Local Open Scope string_scope.
Local Open Scope list_scope.

Infix "+++" := String.append (right associativity, at level 60).

(* ================================================================== *)
(** ** JavaScript strings, arrays and objects *)

Module JS.

(** The double quote and the line feed, which the templates contain. *)
Definition dq : string := String (ascii_of_nat 34) EmptyString.
Definition nl : string := String (ascii_of_nat 10) EmptyString.

(** A string is a sequence of code units below 256.  On text of ASCII
    characters the functions below are those of JavaScript; beyond it
    they know neither the white space nor the letters that lie above
    code unit 255.

    White space and line terminators of [String.prototype.trim] and of
    the regular expression class [\s], for code units below 256:
    TAB, LF, VT, FF, CR, SP and NBSP. *)
Definition is_space (c : ascii) : bool :=
  let n := nat_of_ascii c in
  (Nat.leb 9 n && Nat.leb n 13) || Nat.eqb n 32 || Nat.eqb n 160.

Fixpoint trimStart (s : string) : string :=
  match s with
  | EmptyString => EmptyString
  | String c r => if is_space c then trimStart r else s
  end.

Fixpoint trimEnd (s : string) : string :=
  match s with
  | EmptyString => EmptyString
  | String c r =>
      match trimEnd r with
      | EmptyString => if is_space c then EmptyString else String c EmptyString
      | r' => String c r'
      end
  end.

(** [s.trim()] *)
Definition trim (s : string) : string := trimEnd (trimStart s).

Definition lower_char (c : ascii) : ascii :=
  let n := nat_of_ascii c in
  if (Nat.leb 65 n && Nat.leb n 90)
     || (Nat.leb 192 n && Nat.leb n 222 && negb (Nat.eqb n 215))
  then ascii_of_nat (n + 32) else c.

(** [s.toLowerCase()] *)
Fixpoint toLowerCase (s : string) : string :=
  match s with
  | EmptyString => EmptyString
  | String c r => String (lower_char c) (toLowerCase r)
  end.

(** [s.replace(/\s+/g, '-')]: every maximal run of white space becomes
    one hyphen.  [in_run] tells that the previous character was white. *)
Fixpoint replace_spaces (in_run : bool) (s : string) : string :=
  match s with
  | EmptyString => EmptyString
  | String c r =>
      if is_space c
      then if in_run then replace_spaces true r
           else String "-" (replace_spaces true r)
      else String c (replace_spaces false r)
  end.

Fixpoint drop (n : nat) (s : string) : string :=
  match n, s with
  | O, _ => s
  | S n', String _ r => drop n' r
  | S _, EmptyString => EmptyString
  end.

(** [s.replace(pat, rep)] with a string pattern: the first occurrence
    only ([rep] holds no [$] in the script). *)
Fixpoint replace (pat rep s : string) : string :=
  if String.prefix pat s then rep +++ drop (String.length pat) s
  else match s with
       | EmptyString => EmptyString
       | String c r => String c (replace pat rep r)
       end.

(** [lines.join(sep)] *)
Fixpoint join (sep : string) (l : list string) : string :=
  match l with
  | [] => EmptyString
  | [x] => x
  | x :: r => x +++ sep +++ join sep r
  end.

(** [arr.includes(x)] on an array of strings. *)
Definition includes (x : string) (arr : list string) : bool :=
  existsb (String.eqb x) arr.

(** Values that reach [JSON.stringify]. *)
#[local] Set Warnings "-register-all".
Inductive json : Type :=
| JNum (n : Z)
| JStr (s : string)
| JBool (b : bool)
| JArr (elems : list json)
| JObj (fields : list (string * json)).

(** An object with values in [A]: its own properties in insertion
    order. *)
Definition obj (A : Type) : Type := list (string * A).

(** [o[k]], [None] for [undefined]. *)
Fixpoint obj_get {A} (o : obj A) (k : string) : option A :=
  match o with
  | [] => None
  | (k', v) :: r => if String.eqb k k' then Some v else obj_get r k
  end.

(** [o[k] = v]: an existing property keeps its place, a new one goes
    last. *)
Fixpoint obj_set {A} (o : obj A) (k : string) (v : A) : obj A :=
  match o with
  | [] => [(k, v)]
  | (k', v') :: r =>
      if String.eqb k k' then (k', v) :: r else (k', v') :: obj_set r k v
  end.

(** [Object.keys(o)] *)
Definition keys {A} (o : obj A) : list string := map fst o.

Definition truthy (v : json) : bool :=
  match v with
  | JNum n => negb (Z.eqb n 0)
  | JStr s => negb (String.eqb s "")
  | JBool b => b
  | JArr _ | JObj _ => true
  end.

(** [v || d] for a property read [v]. *)
Definition or_else (v : option json) (d : json) : json :=
  match v with
  | Some x => if truthy x then x else d
  | None => d
  end.

(** [s || d] for a string property read. *)
Definition str_or (v : option string) (d : string) : string :=
  match v with
  | Some s => if String.eqb s "" then d else s
  | None => d
  end.

(** [!s] for a string property read. *)
Definition str_not (v : option string) : bool :=
  match v with
  | Some s => String.eqb s ""
  | None => true
  end.

(** [m || {}] for a property that holds a mapping: an object is
    truthy. *)
Definition map_or_empty {A} (v : option (obj A)) : obj A :=
  match v with
  | Some m => m
  | None => []
  end.

(** [v[k] = x] where [v] is the value of a property: the object it
    refers to gets the property. *)
Definition set_prop (v : json) (k : string) (x : json) : json :=
  match v with
  | JObj fs => JObj (obj_set fs k x)
  | _ => v
  end.

End JS.


(* ================================================================== *)
(** ** The data of the script *)

Module Data.
Import JS.

(** What a prompt of the prompt library gives back: the value entered or
    picked, or the symbol that stands for a cancelled prompt.  The script
    tells the two apart by [typeof] and [Array.isArray], so that
    [CancelSymbol] covers whatever is not of the type asked for. *)
Inductive answer (A : Type) : Type :=
| Value (a : A)
| CancelSymbol.
Arguments Value {A} a.
Arguments CancelSymbol {A}.

(** Truthiness of what [confirm] gives back: a symbol is truthy. *)
Definition confirmed (r : answer bool) : bool :=
  match r with
  | Value b => b
  | CancelSymbol => true
  end.

(** The answers, in the order the script asks for them.  An answer the
    script does not ask for in a run is not looked at. *)
Record Answers : Type := {
  extNameRaw : answer string;
  extDescRaw : answer string;
  versionRaw : answer Z;
  permissionsRaw : answer (list string);
  addIconsResp : answer bool;
  icon16Raw : answer string;
  icon48Raw : answer string;
  icon128Raw : answer string;
  additionalFeaturesRaw : answer (list string);
  popupLangRaw : answer string;
  backgroundLangRaw : answer string;
  contentLangRaw : answer string;
  useSrcFolderRaw : answer bool;
  buildOptionsRaw : answer (list string);
  proceed : answer bool
}.

(** The local variables of [main] once every question is answered
    (source lines 26 to 176): the normalized options. *)
Record Options : Type := {
  extensionName : string;
  extensionDescription : string;
  manifestVersion : Z;
  permissions : list string;
  icons : obj string;
  additionalFeatures : list string;
  popupLang : string;
  backgroundLang : string;
  contentLang : string;
  useSrcFolder : bool;
  buildOptions : list string
}.

(** The object read from and written to [package.json].  The three
    mappings hold strings; [pkg_rest] stands for the properties the script
    never touches. *)
Record PackageDescriptor : Type := {
  pkg_name : option string;
  pkg_version : option string;
  pkg_scripts : option (obj string);
  pkg_devDependencies : option (obj string);
  pkg_dependencies : option (obj string);
  pkg_rest : obj json
}.

(** [{}] *)
Definition empty_pkg : PackageDescriptor :=
  {| pkg_name := None; pkg_version := None; pkg_scripts := None;
     pkg_devDependencies := None; pkg_dependencies := None; pkg_rest := [] |}.

(** What the script reads from the file system: whether [extDir] exists
    already, and the parsed [package.json] below it if there is one. *)
Record Env : Type := {
  extDirExists : bool;
  existingPkg : option PackageDescriptor
}.

(** How a run ends: [process.exit(code)] after a message, or the end of
    [main]. *)
Inductive status : Type :=
| Exit (code : Z) (message : string)
| Success.

End Data.

(* ================================================================== *)
(** ** Node: paths and the file system *)

Module Node.
Import Data.

(** A path below [extDir], as its segments; [[]] is [extDir] itself. *)
Definition path : Type := list string.

(** [path.join(extDir, seg1, ..., segn)]: zero-length segments are
    skipped.  The segments the script passes are plain names, which
    normalisation leaves alone. *)
Definition path_join (segs : list string) : path :=
  filter (fun s => negb (String.eqb s "")) segs.

(** What is written to a file: a text, [JSON.stringify(v, null, 2)] of a
    value, or [JSON.stringify(pkg, null, 2)] of a package descriptor. *)
Inductive filedata : Type :=
| Text (s : string)
| JsonText (v : JS.json)
| PackageText (pkg : PackageDescriptor).

Inductive fs_op : Type :=
| MkdirSync (p : path)
| WriteFileSync (p : path) (data : filedata).

(** A piece of the script that acts on the file system: it extends the
    trace of operations done so far and yields a value. *)
Definition Script (A : Type) : Type := list fs_op -> A * list fs_op.

Definition ret {A} (a : A) : Script A := fun w => (a, w).

Definition bind {A B} (c : Script A) (k : A -> Script B) : Script B :=
  fun w => let (a, w') := c w in k a w'.

Definition mkdirSync (p : path) : Script unit :=
  fun w => (tt, w ++ [MkdirSync p]).

Definition writeFileSync (p : path) (data : filedata) : Script unit :=
  fun w => (tt, w ++ [WriteFileSync p data]).

(** The files a trace writes, in order. *)
Fixpoint written (w : list fs_op) : list (path * filedata) :=
  match w with
  | [] => []
  | WriteFileSync p d :: r => (p, d) :: written r
  | MkdirSync _ :: r => written r
  end.

End Node.

Notation "x <- c ;; k" := (Node.bind c (fun x => k))
  (at level 61, c at next level, right associativity).
Notation "c ;; k" := (Node.bind c (fun _ => k))
  (at level 61, right associativity).

(* ================================================================== *)
(** ** The script *)

Module Cli.
Import JS Data Node.

(** *** Questions and checks (source lines 18 to 176) *)

(** [Array.isArray(r) ? r : []] *)
Definition array_or_empty (r : answer (list string)) : list string :=
  match r with
  | Value l => l
  | CancelSymbol => []
  end.

(** [typeof r === 'string' ? r.trim() : ''] *)
Definition trimmed_or_blank (r : answer string) : string :=
  match r with
  | Value s => trim s
  | CancelSymbol => ""
  end.

(** [if (icon) icons[size] = icon] *)
Definition add_icon (icons : obj string) (size icon : string) : obj string :=
  if String.eqb icon "" then icons else obj_set icons size icon.

(** Source lines 81 to 95.  The three keys are set in ascending order,
    which is also the order in which an object lists integer keys. *)
Definition ask_icons (a : Answers) : obj string :=
  let icons := [] in
  if confirmed (addIconsResp a) then
    let icons := add_icon icons "16" (trimmed_or_blank (icon16Raw a)) in
    let icons := add_icon icons "48" (trimmed_or_blank (icon48Raw a)) in
    let icons := add_icon icons "128" (trimmed_or_blank (icon128Raw a)) in
    icons
  else icons.

(** A language question: asked only when the feature is selected, and a
    cancelled question leaves the default. *)
Definition ask_lang (features : list string) (feature : string)
    (r : answer string) (default : string) : string :=
  if includes feature features then
    match r with
    | Value s => s
    | CancelSymbol => default
    end
  else default.

(** Source lines 172 to 176: "none" overrides any other build option. *)
Definition ask_buildOptions (r : answer (list string)) : list string :=
  let buildOptions := array_or_empty r in
  if includes "none" buildOptions then [] else buildOptions.

(** The questions in order, each with its check; the first check that
    fails ends the run. *)
Definition normalize (a : Answers) : status + Options :=
  match extNameRaw a with
  | CancelSymbol => inl (Exit 1 "No extension name provided.")
  | Value extNameRaw =>
  match extDescRaw a with
  | CancelSymbol => inl (Exit 1 "No description provided.")
  | Value extDescRaw =>
  match versionRaw a with
  | CancelSymbol => inl (Exit 1 "No manifest version selected.")
  | Value versionRaw =>
  let permissions := array_or_empty (permissionsRaw a) in
  if Nat.eqb (List.length permissions) 0
  then inl (Exit 1 "At least one permission is required.")
  else
    let additionalFeatures := array_or_empty (additionalFeaturesRaw a) in
    inr {| extensionName := trim extNameRaw;
           extensionDescription := trim extDescRaw;
           manifestVersion := versionRaw;
           permissions := permissions;
           icons := ask_icons a;
           additionalFeatures := additionalFeatures;
           popupLang :=
             ask_lang additionalFeatures "popup" (popupLangRaw a) "html";
           backgroundLang :=
             ask_lang additionalFeatures "background" (backgroundLangRaw a) "js";
           contentLang :=
             ask_lang additionalFeatures "content" (contentLangRaw a) "js";
           useSrcFolder := confirmed (useSrcFolderRaw a);
           buildOptions := ask_buildOptions (buildOptionsRaw a) |}
  end end end.

(** *** Templates *)

(** The lines of a text, each ended by a line feed. *)
Fixpoint unlines (l : list string) : string :=
  match l with
  | [] => ""
  | x :: r => x +++ nl +++ unlines r
  end.

(** The page every HTML template of the script spells out: fixed head
    with the given title, and the given lines as body. *)
Definition html_page (title : string) (body : list string) : string :=
  unlines (["<!DOCTYPE html>";
            "<html>";
            "<head>";
            "  <meta charset=" +++ dq +++ "utf-8" +++ dq +++ ">";
            "  <title>" +++ title +++ "</title>";
            "</head>";
            "<body>"]
           ++ body ++
           ["</body>";
            "</html>"]).

(** [html.replace('</head>', jquery tag + '</head>')] when "jquery-cdn"
    is a build option. *)
Definition with_jquery_cdn (o : Options) (html : string) : string :=
  if includes "jquery-cdn" (buildOptions o) then
    replace "</head>"
      ("  <script src=" +++ dq +++ "https://code.jquery.com/jquery-3.6.0.min.js"
        +++ dq +++ "></script>" +++ nl +++ "</head>")
      html
  else html.

(** The script tag of the three popup pages. *)
Definition popup_script_tag (o : Options) : string :=
  "  <script src=" +++ dq +++ "popup.js" +++ dq
  +++ (if includes "esmodules" (buildOptions o)
       then " type=" +++ dq +++ "module" +++ dq else "")
  +++ "></script>".

Definition popup_tsx : string :=
  unlines ["import React from 'react';";
           "import ReactDOM from 'react-dom';";
           "";
           "const App = () => {";
           "  return <h1>Hello from React Popup!</h1>;";
           "};";
           "";
           "ReactDOM.render(<App />, document.getElementById('root'));"].

(** *** Writing the project (source lines 198 to 444) *)

(** The helper of line 199: below "src" when the source folder is used. *)
Definition filePath (o : Options) (filename : string) : path :=
  path_join [(if useSrcFolder o then "src" else ""); filename].

(** Lines 203 to 209: the object literal. *)
Definition manifest_literal (o : Options) : obj json :=
  [("manifest_version", JNum (manifestVersion o));
   ("name", JStr (extensionName o));
   ("version", JStr "1.0.0");
   ("description", JStr (extensionDescription o));
   ("permissions", JArr (map JStr (permissions o)))].

(** Lines 203 to 212. *)
Definition manifest_start (o : Options) : obj json :=
  let manifest := manifest_literal o in
  if Nat.ltb 0 (List.length (keys (icons o)))
  then obj_set manifest "icons"
         (JObj (map (fun kv => (fst kv, JStr (snd kv))) (icons o)))
  else manifest.

Definition lang_name (lang : string) : string :=
  if String.eqb lang "ts" then "TypeScript" else "JavaScript".

(** Lines 214 to 229. *)
Definition background_script (o : Options) (manifest : obj json)
  : Script (obj json) :=
  if includes "background" (additionalFeatures o) then
    let manifest :=
      if Z.eqb (manifestVersion o) 3 then
        obj_set manifest "background"
          (JObj ([("service_worker", JStr "background.js")]
                 ++ (if includes "esmodules" (buildOptions o)
                     then [("type", JStr "module")] else [])))
      else
        obj_set manifest "background"
          (JObj [("scripts", JArr [JStr "background.js"]);
                 ("persistent", JBool false)]) in
    let bgFileName :=
      if String.eqb (backgroundLang o) "ts"
      then "background.ts" else "background.js" in
    writeFileSync (filePath o bgFileName)
      (Text ("// " +++ lang_name (backgroundLang o) +++ " background script"
             +++ nl +++ "console.log('Background script running');" +++ nl)) ;;
    ret manifest
  else ret manifest.

(** Lines 231 to 242. *)
Definition content_script (o : Options) (manifest : obj json)
  : Script (obj json) :=
  if includes "content" (additionalFeatures o) then
    let manifest :=
      obj_set manifest "content_scripts"
        (JArr [JObj [("matches", JArr [JStr "<all_urls>"]);
                     ("js", JArr [JStr "content.js"])]]) in
    let contentFileName :=
      if String.eqb (contentLang o) "ts"
      then "content.ts" else "content.js" in
    writeFileSync (filePath o contentFileName)
      (Text ("// " +++ lang_name (contentLang o) +++ " content script"
             +++ nl +++ "console.log('Content script injected');" +++ nl)) ;;
    ret manifest
  else ret manifest.

(** Lines 244 to 268. *)
Definition options_page (o : Options) (manifest : obj json)
  : Script (obj json) :=
  if includes "options" (additionalFeatures o) then
    let optionsHTML :=
      with_jquery_cdn o (html_page "Options" ["  <h1>Extension Options</h1>"]) in
    writeFileSync (filePath o "options.html") (Text optionsHTML) ;;
    if Z.eqb (manifestVersion o) 3 then
      ret (obj_set manifest "options_ui"
             (JObj [("page", JStr "options.html"); ("open_in_tab", JBool true)]))
    else
      ret (obj_set manifest "options_page" (JStr "options.html"))
  else ret manifest.

(** Lines 270 to 290. *)
Definition devtools_page (o : Options) (manifest : obj json)
  : Script (obj json) :=
  if includes "devtools" (additionalFeatures o) && Z.eqb (manifestVersion o) 2
  then
    let devtoolsHTML :=
      with_jquery_cdn o (html_page "DevTools" ["  <h1>DevTools Page</h1>"]) in
    writeFileSync (filePath o "devtools.html") (Text devtoolsHTML) ;;
    ret (obj_set manifest "devtools_page" (JStr "devtools.html"))
  else ret manifest.

(** [manifest[k].default_popup = 'popup.html']; the script assigns
    [manifest[k]] an object on the line before. *)
Definition set_default_popup (manifest : obj json) (k : string) : obj json :=
  match obj_get manifest k with
  | Some v => obj_set manifest k (set_prop v "default_popup" (JStr "popup.html"))
  | None => manifest
  end.

(** [manifest[k] = manifest[k] || {}] *)
Definition ensure_object (manifest : obj json) (k : string) : obj json :=
  obj_set manifest k (or_else (obj_get manifest k) (JObj [])).

(** Lines 302 to 352: the popup page and its source file, by language. *)
Definition popup_source (o : Options) : Script string :=
  if String.eqb (popupLang o) "html" then
    writeFileSync (filePath o "popup.js")
      (Text ("console.log('Popup JS loaded');" +++ nl)) ;;
    ret (html_page "Popup"
           ["  <h1>Hello from Popup</h1>";
            popup_script_tag o])
  else if String.eqb (popupLang o) "ts" then
    writeFileSync (filePath o "popup.ts")
      (Text ("console.log('Popup TypeScript loaded');" +++ nl)) ;;
    ret (html_page "Popup"
           ["  <h1>Popup (TypeScript)</h1>";
            "  <!-- Compile popup.ts to popup.js -->";
            popup_script_tag o])
  else if String.eqb (popupLang o) "react" then
    writeFileSync (filePath o "popup.tsx") (Text popup_tsx) ;;
    ret (html_page "Popup"
           ["  <div id=" +++ dq +++ "root" +++ dq +++ "></div>";
            "  <!-- Bundle popup.tsx to popup.js -->";
            popup_script_tag o])
  else ret "".

(** Lines 292 to 366. *)
Definition popup_page (o : Options) (manifest : obj json)
  : Script (obj json) :=
  if includes "popup" (additionalFeatures o) then
    let manifest :=
      if Z.eqb (manifestVersion o) 3
      then set_default_popup (ensure_object manifest "action") "action"
      else set_default_popup (ensure_object manifest "browser_action")
             "browser_action" in
    popupHTMLContent <- popup_source o ;;
    writeFileSync (filePath o "popup.html")
      (Text (with_jquery_cdn o popupHTMLContent)) ;;
    ret manifest
  else
    if Z.eqb (manifestVersion o) 3
    then ret (ensure_object manifest "action")
    else ret (ensure_object manifest "browser_action").

(** Lines 203 to 369: the manifest is built block by block while the
    files of the features are written, and is written last, at the root
    of the extension directory. *)
Definition synthesize (o : Options) : Script (obj json) :=
  manifest <- background_script o (manifest_start o) ;;
  manifest <- content_script o manifest ;;
  manifest <- options_page o manifest ;;
  manifest <- devtools_page o manifest ;;
  manifest <- popup_page o manifest ;;
  writeFileSync (path_join ["manifest.json"]) (JsonText (JObj manifest)) ;;
  ret manifest.

(** The manifest descriptor and the file plan of given options. *)
Definition manifest_of (o : Options) : obj json := fst (synthesize o []).
Definition file_plan (o : Options) : list (path * filedata) :=
  written (snd (synthesize o [])).

(** *** package.json (source lines 371 to 406) *)

(** The condition of lines 388, 395 and 401. *)
Definition uses_typescript (o : Options) : bool :=
  String.eqb (backgroundLang o) "ts" || String.eqb (contentLang o) "ts"
  || String.eqb (popupLang o) "ts" || String.eqb (popupLang o) "react".

(** [m[k] = m[k] || d] *)
Definition default_to (m : obj string) (k d : string) : obj string :=
  obj_set m k (str_or (obj_get m k) d).

(** [if (ts && !dev.typescript) dev.typescript = '^4.9.5'] *)
Definition add_typescript (o : Options) (dev : obj string) : obj string :=
  if uses_typescript o && str_not (obj_get dev "typescript")
  then obj_set dev "typescript" "^4.9.5" else dev.

(** Lines 378 to 404 on the object [pkg]. *)
Definition resolve_package (o : Options) (pkg : PackageDescriptor)
  : PackageDescriptor :=
  let name :=
    str_or (pkg_name pkg) (replace_spaces false (toLowerCase (extensionName o))) in
  let version := str_or (pkg_version pkg) "1.0.0" in
  let scripts := map_or_empty (pkg_scripts pkg) in
  let scripts := default_to scripts "build" "tsc" in
  let devDependencies := map_or_empty (pkg_devDependencies pkg) in
  let dependencies := map_or_empty (pkg_dependencies pkg) in
  let devDependencies :=
    if includes "bundler-webpack" (buildOptions o) then
      let dev := default_to devDependencies "webpack" "^5.0.0" in
      let dev := default_to dev "webpack-cli" "^4.0.0" in
      add_typescript o dev
    else devDependencies in
  let devDependencies :=
    if includes "bundler-rollup" (buildOptions o) then
      let dev := default_to devDependencies "rollup" "^2.0.0" in
      let dev := default_to dev "rollup-plugin-typescript2" "^0.34.1" in
      add_typescript o dev
    else devDependencies in
  let dependencies :=
    if includes "jquery-npm" (buildOptions o)
    then default_to dependencies "jquery" "^3.6.0" else dependencies in
  let devDependencies :=
    if includes "jquery-npm" (buildOptions o) && uses_typescript o
    then default_to devDependencies "@types/jquery" "^3.5.14"
    else devDependencies in
  {| pkg_name := Some name;
     pkg_version := Some version;
     pkg_scripts := Some scripts;
     pkg_devDependencies := Some devDependencies;
     pkg_dependencies := Some dependencies;
     pkg_rest := pkg_rest pkg |}.

Definition package_json (o : Options) (env : Env) : Script unit :=
  if Nat.ltb 0 (List.length (buildOptions o)) then
    let pkg :=
      match existingPkg env with
      | Some parsed => parsed
      | None => empty_pkg
      end in
    writeFileSync (path_join ["package.json"])
      (PackageText (resolve_package o pkg))
  else ret tt.

(** *** TODO.md (source lines 408 to 444) *)

Definition todoLines (o : Options) : list string :=
  ["# TODO"; ""; "## Next Steps"]
  ++ (if includes "background" (additionalFeatures o)
      then ["- Edit your background script ("
            +++ (if String.eqb (backgroundLang o) "ts"
                 then "background.ts" else "background.js") +++ ")."]
      else [])
  ++ (if includes "content" (additionalFeatures o)
      then ["- Edit your content script ("
            +++ (if String.eqb (contentLang o) "ts"
                 then "content.ts" else "content.js") +++ ")."]
      else [])
  ++ (if includes "popup" (additionalFeatures o) then
        if String.eqb (popupLang o) "html" then
          ["- Edit your popup HTML and JS files (popup.html and popup.js)."]
        else if String.eqb (popupLang o) "ts" then
          ["- Edit your popup files (popup.html and popup.ts) and compile to popup.js."]
        else if String.eqb (popupLang o) "react" then
          ["- Edit your popup files (popup.html and popup.tsx) and bundle to popup.js."]
        else []
      else [])
  ++ (if includes "options" (additionalFeatures o)
      then ["- Edit your options page (options.html)."] else [])
  ++ (if includes "devtools" (additionalFeatures o)
         && Z.eqb (manifestVersion o) 2
      then ["- Edit your DevTools page (devtools.html)."] else [])
  ++ (if Nat.ltb 0 (List.length (buildOptions o)) then
        ["- Run `npm install` in your extension directory to install build dependencies.";
         "- Build your extension (for example, run `npm run build`) after editing your TypeScript or bundler configuration."]
      else
        ["- No build dependencies configured. Set up your build process manually if needed."])
  ++ [""; "---";
      "Remember: Chrome extensions require JavaScript at runtime. If you write code in TypeScript or use ES modules, make sure to compile or bundle your code appropriately."].

(** *** The whole run *)

(** Lines 191 to 444, once the directory is known to be free. *)
Definition generate (o : Options) (env : Env) : Script unit :=
  mkdirSync (path_join []) ;;
  (if useSrcFolder o then mkdirSync (path_join ["src"]) else ret tt) ;;
  _ <- synthesize o ;;
  package_json o env ;;
  writeFileSync (path_join ["TODO.md"]) (Text (join nl (todoLines o))).

(** [main]: the questions and their checks, the confirmation, the check
    of the directory, and the writing. *)
Definition main (a : Answers) (env : Env) : Script status :=
  match normalize a with
  | inl exit => ret exit
  | inr o =>
      if negb (confirmed (proceed a)) then ret (Exit 0 "Aborted.")
      else if extDirExists env then
        ret (Exit 1 ("Directory " +++ dq +++ extensionName o +++ dq
                     +++ " already exists!"))
      else generate o env ;; ret Success
  end.

End Cli.

(* ================================================================== *)
(** ** What the properties speak about *)

Module Props.
Import JS Data Node Cli.

(** Every element of [l] is one of [allowed]. *)
Definition all_among (allowed l : list string) : bool :=
  forallb (fun x => includes x allowed) l.

(** The options the data model calls valid: name and description are not
    empty, the manifest version is 2 or 3, there is a permission, icon
    sizes, features, languages and build options are those the questions
    offer. *)
Definition valid_options (o : Options) : bool :=
  negb (String.eqb (extensionName o) "")
  && negb (String.eqb (extensionDescription o) "")
  && (Z.eqb (manifestVersion o) 2 || Z.eqb (manifestVersion o) 3)
  && negb (Nat.eqb (List.length (permissions o)) 0)
  && all_among ["16"; "48"; "128"] (keys (icons o))
  && all_among ["background"; "content"; "popup"; "options"; "devtools"]
       (additionalFeatures o)
  && includes (popupLang o) ["html"; "ts"; "react"]
  && includes (backgroundLang o) ["js"; "ts"]
  && includes (contentLang o) ["js"; "ts"]
  && all_among ["package"; "bundler-webpack"; "bundler-rollup"; "jquery-npm";
                "jquery-cdn"; "esmodules"] (buildOptions o).

(** Some object inside [v], at any depth, has a property named [k]. *)
Fixpoint mentions (k : string) (v : json) : bool :=
  match v with
  | JArr elems => existsb (mentions k) elems
  | JObj fields =>
      existsb (fun kv => String.eqb k (fst kv) || mentions k (snd kv)) fields
  | _ => false
  end.

(** [v[k]] for a property read [v] that may be undefined. *)
Definition field (v : option json) (k : string) : option json :=
  match v with
  | Some (JObj fs) => obj_get fs k
  | _ => None
  end.

(** The strings of a property read: the string itself, or the strings of
    an array. *)
Definition strings_of (v : option json) : list string :=
  match v with
  | Some (JStr s) => [s]
  | Some (JArr elems) =>
      flat_map (fun e => match e with JStr s => [s] | _ => [] end) elems
  | _ => []
  end.

(** The [js] files of the entries of [content_scripts]. *)
Definition content_script_files (v : option json) : list string :=
  match v with
  | Some (JArr entries) =>
      flat_map (fun e => strings_of (field (Some e) "js")) entries
  | _ => []
  end.

(** The file names a manifest refers to for its background script,
    content scripts, options page, devtools page and popup. *)
Definition referenced_files (manifest : obj json) : list string :=
  strings_of (field (obj_get manifest "background") "service_worker")
  ++ strings_of (field (obj_get manifest "background") "scripts")
  ++ content_script_files (obj_get manifest "content_scripts")
  ++ strings_of (field (obj_get manifest "options_ui") "page")
  ++ strings_of (obj_get manifest "options_page")
  ++ strings_of (obj_get manifest "devtools_page")
  ++ strings_of (field (obj_get manifest "action") "default_popup")
  ++ strings_of (field (obj_get manifest "browser_action") "default_popup").


(** The name under which the script writes the source of a referenced
    file: the TypeScript source for a script authored in TypeScript. *)
Definition authored_name (o : Options) (f : string) : string :=
  if String.eqb f "background.js" then
    if String.eqb (backgroundLang o) "ts" then "background.ts" else f
  else if String.eqb f "content.js" then
    if String.eqb (contentLang o) "ts" then "content.ts" else f
  else f.

(** The last segment of a path. *)
Definition basename (p : path) : string := last p "".

(** The path lies below the "src" folder of the extension directory. *)
Definition under_src (p : path) : bool :=
  match p with
  | seg :: _ :: _ => String.eqb seg "src"
  | _ => false
  end.

(** The devtools feature is materialized by the script. *)
Definition devtools_materialized (o : Options) : bool :=
  includes "devtools" (additionalFeatures o) && Z.eqb (manifestVersion o) 2.




(** A piece of the script only adds operations to the trace, and what it
    adds and yields does not depend on the trace it starts from. *)
Definition appends {A} (c : Script A) : Prop :=
  forall w, c w = (fst (c []), w ++ snd (c [])).

(** The manifest a block yields and the files it writes, run on its
    own. *)
Definition yields (block : Options -> obj json -> Script (obj json))
    (o : Options) (manifest : obj json) : obj json :=
  fst (block o manifest []).

Definition files {A} (c : Script A) : list (path * filedata) :=
  written (snd (c [])).

(** The manifest after each block of [synthesize]. *)
Definition manifest_1 (o : Options) : obj json :=
  yields background_script o (manifest_start o).
Definition manifest_2 (o : Options) : obj json :=
  yields content_script o (manifest_1 o).
Definition manifest_3 (o : Options) : obj json :=
  yields options_page o (manifest_2 o).
Definition manifest_4 (o : Options) : obj json :=
  yields devtools_page o (manifest_3 o).

(** The name of the source file the popup block writes besides
    [popup.html]. *)
Definition popup_source_names (o : Options) : list string :=
  if String.eqb (popupLang o) "html" then ["popup.js"]
  else if String.eqb (popupLang o) "ts" then ["popup.ts"]
  else if String.eqb (popupLang o) "react" then ["popup.tsx"]
  else [].

(** The names of the files the feature blocks write, in order. *)
Definition source_names (o : Options) : list string :=
  (if includes "background" (additionalFeatures o)
   then [authored_name o "background.js"] else [])
  ++ (if includes "content" (additionalFeatures o)
      then [authored_name o "content.js"] else [])
  ++ (if includes "options" (additionalFeatures o)
      then ["options.html"] else [])
  ++ (if devtools_materialized o then ["devtools.html"] else [])
  ++ (if includes "popup" (additionalFeatures o)
      then popup_source_names o ++ ["popup.html"] else []).







(** [s.includes(pat)]: [pat] occurs somewhere in [s]. *)
Fixpoint contains (pat s : string) : bool :=
  String.prefix pat s
  || match s with
     | EmptyString => false
     | String _ r => contains pat r
     end.

(** Every character of the string passes the test. *)
Fixpoint all_chars (test : ascii -> bool) (s : string) : bool :=
  match s with
  | EmptyString => true
  | String c r => test c && all_chars test r
  end.

(** An upper-case letter A to Z. *)
Definition is_upper (c : ascii) : bool :=
  Nat.leb 65 (nat_of_ascii c) && Nat.leb (nat_of_ascii c) 90.

(** The string begins, or ends, with white space. *)
Definition starts_with_space (s : string) : bool :=
  match s with
  | EmptyString => false
  | String c _ => is_space c
  end.

Fixpoint ends_with_space (s : string) : bool :=
  match s with
  | EmptyString => false
  | String c EmptyString => is_space c
  | String _ r => ends_with_space r
  end.

(** The same options with other authoring choices: languages and source
    folder. *)
Definition with_authoring (o : Options) (popup background content : string)
    (src : bool) : Options :=
  {| extensionName := extensionName o;
     extensionDescription := extensionDescription o;
     manifestVersion := manifestVersion o;
     permissions := permissions o;
     icons := icons o;
     additionalFeatures := additionalFeatures o;
     popupLang := popup;
     backgroundLang := background;
     contentLang := content;
     useSrcFolder := src;
     buildOptions := buildOptions o |}.

(** The operation that writes a file of a plan. *)
Definition write_op (file : path * filedata) : fs_op :=
  WriteFileSync (fst file) (snd file).

(** The trace holds writes only. *)
Definition writes_only (w : list fs_op) : Prop := w = map write_op (written w).

(** The address of the jQuery build the pages load from the CDN. *)
Definition jquery_url : string := "https://code.jquery.com/jquery-3.6.0.min.js".

(** The paths of the list are pairwise different. *)
Fixpoint distinct_paths (l : list path) : bool :=
  match l with
  | [] => true
  | p :: r =>
      negb (existsb (fun q => if list_eq_dec string_dec p q then true else false) r)
      && distinct_paths r
  end.

(** The file is [package.json] at the root of the extension
    directory. *)
Definition is_package_json (file : path * filedata) : bool :=
  if list_eq_dec string_dec (fst file) ["package.json"] then true else false.



(** A character of ASCII, on which the string functions of JavaScript
    are the ones of this file; and the white space of ASCII: TAB, LF, VT,
    FF, CR and SP. *)
Definition is_ascii (c : ascii) : bool := Nat.ltb (nat_of_ascii c) 128.

Definition is_ascii_space (c : ascii) : bool :=
  (Nat.leb 9 (nat_of_ascii c) && Nat.leb (nat_of_ascii c) 13)
  || Nat.eqb (nat_of_ascii c) 32.

(** [t] is [raw] without the white space at its two ends. *)
Definition trimmed_from (raw t : string) : Prop :=
  (exists before after,
      raw = before +++ t +++ after
      /\ all_chars is_ascii_space before = true
      /\ all_chars is_ascii_space after = true)
  /\ starts_with_space t = false
  /\ ends_with_space t = false
  /\ (t = "" <-> all_chars is_ascii_space raw = true).

(** A character that may stand in a default package name. *)
Definition package_name_char (c : ascii) : bool :=
  is_ascii c && negb (is_space c) && negb (is_upper c).

(** The string holds no white space. *)
Definition no_space (s : string) : bool :=
  all_chars (fun c => negb (is_space c)) s.

End Props.

(* ================================================================== *)
(** ** Concrete runs *)

Module Examples.
Import JS Data Node Cli Props.


(** A plain popup with the source folder, manifest version 3. *)
Definition popup_in_src : Options :=
  {| extensionName := "Demo";
     extensionDescription := "A demo extension";
     manifestVersion := 3;
     permissions := ["storage"];
     icons := [];
     additionalFeatures := ["popup"];
     popupLang := "html";
     backgroundLang := "js";
     contentLang := "js";
     useSrcFolder := true;
     buildOptions := [] |}.

(** Every feature in plain JavaScript and HTML under a manifest
    version, no source folder, icons of two sizes, jQuery from the CDN. *)
Definition all_features (version : Z) : Options :=
  {| extensionName := "Demo";
     extensionDescription := "A demo extension";
     manifestVersion := version;
     permissions := ["storage"; "tabs"];
     icons := [("16", "icon16.png"); ("128", "icon128.png")];
     additionalFeatures := ["background"; "content"; "popup"; "options"; "devtools"];
     popupLang := "html";
     backgroundLang := "js";
     contentLang := "js";
     useSrcFolder := false;
     buildOptions := ["jquery-cdn"] |}.

(** Options without the popup feature. *)
Definition no_popup (version : Z) : Options :=
  {| extensionName := "Demo";
     extensionDescription := "A demo extension";
     manifestVersion := version;
     permissions := ["storage"];
     icons := [];
     additionalFeatures := ["options"];
     popupLang := "html";
     backgroundLang := "js";
     contentLang := "js";
     useSrcFolder := false;
     buildOptions := [] |}.

(** Answers that pass every check: no feature, no icon, no build
    option, everything confirmed. *)
Definition plain_answers : Answers :=
  {| extNameRaw := Value "Demo";
     extDescRaw := Value "A demo extension";
     versionRaw := Value 3%Z;
     permissionsRaw := Value ["storage"];
     addIconsResp := Value false;
     icon16Raw := Value "";
     icon48Raw := Value "";
     icon128Raw := Value "";
     additionalFeaturesRaw := Value [];
     popupLangRaw := Value "html";
     backgroundLangRaw := Value "js";
     contentLangRaw := Value "js";
     useSrcFolderRaw := Value false;
     buildOptionsRaw := Value [];
     proceed := Value true |}.

(** The same with a description of three spaces. *)
Definition blank_description : Answers :=
  {| extNameRaw := Value "Demo";
     extDescRaw := Value "   ";
     versionRaw := Value 3%Z;
     permissionsRaw := Value ["storage"];
     addIconsResp := Value false;
     icon16Raw := Value "";
     icon48Raw := Value "";
     icon128Raw := Value "";
     additionalFeaturesRaw := Value [];
     popupLangRaw := Value "html";
     backgroundLangRaw := Value "js";
     contentLangRaw := Value "js";
     useSrcFolderRaw := Value false;
     buildOptionsRaw := Value [];
     proceed := Value true |}.

(** The same as [plain_answers] with no permission picked. *)
Definition no_permission : Answers :=
  {| extNameRaw := Value "Demo";
     extDescRaw := Value "A demo extension";
     versionRaw := Value 3%Z;
     permissionsRaw := Value [];
     addIconsResp := Value false;
     icon16Raw := Value "";
     icon48Raw := Value "";
     icon128Raw := Value "";
     additionalFeaturesRaw := Value [];
     popupLangRaw := Value "html";
     backgroundLangRaw := Value "js";
     contentLangRaw := Value "js";
     useSrcFolderRaw := Value false;
     buildOptionsRaw := Value [];
     proceed := Value true |}.

(** The same as [plain_answers] with the given build options. *)
Definition with_build_options (raw : list string) : Answers :=
  {| extNameRaw := Value "Demo";
     extDescRaw := Value "A demo extension";
     versionRaw := Value 3%Z;
     permissionsRaw := Value ["storage"];
     addIconsResp := Value false;
     icon16Raw := Value "";
     icon48Raw := Value "";
     icon128Raw := Value "";
     additionalFeaturesRaw := Value [];
     popupLangRaw := Value "html";
     backgroundLangRaw := Value "js";
     contentLangRaw := Value "js";
     useSrcFolderRaw := Value false;
     buildOptionsRaw := Value raw;
     proceed := Value true |}.


(** A [package.json] with a build script of the user's. *)
Definition custom_build_script : PackageDescriptor :=
  {| pkg_name := Some "demo";
     pkg_version := Some "0.3.0";
     pkg_scripts := Some [("build", "custom"); ("test", "jest")];
     pkg_devDependencies := Some [("typescript", "^5.4.0")];
     pkg_dependencies := None;
     pkg_rest := [("license", JStr "MIT")] |}.

(** Webpack and jQuery from npm, with a React popup. *)
Definition bundled : Options :=
  {| extensionName := "My  Demo";
     extensionDescription := "A demo extension";
     manifestVersion := 3;
     permissions := ["storage"];
     icons := [];
     additionalFeatures := ["popup"];
     popupLang := "react";
     backgroundLang := "js";
     contentLang := "js";
     useSrcFolder := false;
     buildOptions := ["bundler-webpack"; "jquery-npm"] |}.

(** Languages answered although no feature is selected. *)
Definition stray_languages : Answers :=
  {| extNameRaw := Value "  Demo ";
     extDescRaw := Value "A demo extension";
     versionRaw := Value 3%Z;
     permissionsRaw := Value ["storage"];
     addIconsResp := Value false;
     icon16Raw := Value "";
     icon48Raw := Value "";
     icon128Raw := Value "";
     additionalFeaturesRaw := Value ["options"];
     popupLangRaw := Value "react";
     backgroundLangRaw := Value "ts";
     contentLangRaw := Value "ts";
     useSrcFolderRaw := Value false;
     buildOptionsRaw := Value ["bundler-webpack"];
     proceed := Value true |}.

(** Every confirmation cancelled, the rest as in [plain_answers]. *)
Definition confirmations_cancelled : Answers :=
  {| extNameRaw := Value "Demo";
     extDescRaw := Value "A demo extension";
     versionRaw := Value 3%Z;
     permissionsRaw := Value ["storage"];
     addIconsResp := CancelSymbol;
     icon16Raw := Value " icon16.png";
     icon48Raw := CancelSymbol;
     icon128Raw := Value "  ";
     additionalFeaturesRaw := Value ["options"];
     popupLangRaw := Value "html";
     backgroundLangRaw := Value "js";
     contentLangRaw := Value "js";
     useSrcFolderRaw := CancelSymbol;
     buildOptionsRaw := Value [];
     proceed := CancelSymbol |}.

(** The extension directory is free and holds no [package.json]. *)
Definition free_directory : Env :=
  {| extDirExists := false; existingPkg := None |}.

End Examples.

Import JS Data Node Cli Props.

(* ================================================================== *)
(** ** Objects *)

Section Objects.
Context {A : Type}.
Implicit Types (m : obj A) (k : string) (v : A).

Lemma obj_get_set_same m k v : obj_get (obj_set m k v) k = Some v.
Proof.
  induction m as [|[k' v'] r IH]; cbn.
  - now rewrite String.eqb_refl.
  - destruct (String.eqb k k') eqn:E; cbn; rewrite E; auto.
Qed.

Lemma obj_get_set_other m k k' v :
  k <> k' -> obj_get (obj_set m k' v) k = obj_get m k.
Proof.
  intros Hne. induction m as [|[k1 v1] r IH]; cbn.
  - apply String.eqb_neq in Hne. now rewrite Hne.
  - destruct (String.eqb k' k1) eqn:E; cbn.
    + apply String.eqb_eq in E. subst k1.
      apply String.eqb_neq in Hne. now rewrite Hne.
    + now rewrite IH.
Qed.


End Objects.

Lemma eqb_false_of_neq (a b : string) : a <> b -> String.eqb a b = false.
Proof. apply String.eqb_neq. Qed.

(* ================================================================== *)
(** ** Running pieces of the script *)

Lemma bind_run {A B} (c : Script A) (k : A -> Script B) w :
  bind c k w = k (fst (c w)) (snd (c w)).
Proof. unfold bind. now destruct (c w). Qed.

Lemma written_app w1 w2 : written (w1 ++ w2) = written w1 ++ written w2.
Proof.
  induction w1 as [|[p|p d] r IH]; cbn; auto. now rewrite IH.
Qed.

Lemma appends_ret {A} (a : A) : appends (ret a).
Proof. intros w. cbn. now rewrite app_nil_r. Qed.

Lemma appends_writeFileSync p d : appends (writeFileSync p d).
Proof. intros w. reflexivity. Qed.

Lemma appends_mkdirSync p : appends (mkdirSync p).
Proof. intros w. reflexivity. Qed.

Lemma appends_bind {A B} (c : Script A) (k : A -> Script B) :
  appends c -> (forall a, appends (k a)) -> appends (bind c k).
Proof.
  intros Hc Hk w. rewrite !bind_run.
  rewrite (Hc w). cbn [fst snd].
  rewrite (Hk (fst (c [])) (w ++ snd (c []))).
  rewrite (Hk (fst (c [])) (snd (c []))). cbn [fst snd].
  now rewrite app_assoc.
Qed.

Lemma appends_if {A} (b : bool) (c1 c2 : Script A) :
  appends c1 -> appends c2 -> appends (if b then c1 else c2).
Proof. now destruct b. Qed.

Create HintDb script.
#[local] Hint Resolve appends_ret appends_writeFileSync appends_mkdirSync
  appends_if : script.
#[local] Hint Extern 2 (appends (bind _ _)) =>
  apply appends_bind; [|intro] : script.

Lemma appends_popup_source o : appends (popup_source o).
Proof. unfold popup_source. auto 10 with script. Qed.
#[local] Hint Resolve appends_popup_source : script.

Lemma appends_background_script o m : appends (background_script o m).
Proof. unfold background_script. auto 10 with script. Qed.

Lemma appends_content_script o m : appends (content_script o m).
Proof. unfold content_script. auto 10 with script. Qed.

Lemma appends_options_page o m : appends (options_page o m).
Proof. unfold options_page. auto 10 with script. Qed.

Lemma appends_devtools_page o m : appends (devtools_page o m).
Proof. unfold devtools_page. auto 10 with script. Qed.

Lemma appends_popup_page o m : appends (popup_page o m).
Proof. unfold popup_page. auto 10 with script. Qed.

#[local] Hint Resolve appends_background_script appends_content_script
  appends_options_page appends_devtools_page appends_popup_page : script.

Lemma appends_synthesize o : appends (synthesize o).
Proof. unfold synthesize. auto 20 with script. Qed.

Lemma appends_package_json o env : appends (package_json o env).
Proof. unfold package_json. auto with script. Qed.

#[local] Hint Resolve appends_synthesize appends_package_json : script.

Lemma appends_generate o env : appends (generate o env).
Proof. unfold generate. auto 20 with script. Qed.

Lemma fst_appends {A} (c : Script A) w : appends c -> fst (c w) = fst (c []).
Proof. intros H. now rewrite (H w). Qed.

Lemma snd_appends {A} (c : Script A) w :
  appends c -> snd (c w) = w ++ snd (c []).
Proof. intros H. now rewrite (H w). Qed.

(** [synthesize] block by block. *)
Lemma manifest_of_blocks o :
  manifest_of o = yields popup_page o (manifest_4 o).
Proof.
  unfold manifest_of, synthesize, manifest_4, manifest_3, manifest_2,
    manifest_1, yields.
  rewrite !bind_run. cbn [fst snd ret writeFileSync].
  rewrite (fst_appends (popup_page _ _) _ (appends_popup_page _ _)).
  rewrite (fst_appends (devtools_page _ _) _ (appends_devtools_page _ _)).
  rewrite (fst_appends (options_page _ _) _ (appends_options_page _ _)).
  rewrite (fst_appends (content_script _ _) _ (appends_content_script _ _)).
  reflexivity.
Qed.

Lemma file_plan_blocks o :
  file_plan o =
  files (background_script o (manifest_start o))
  ++ files (content_script o (manifest_1 o))
  ++ files (options_page o (manifest_2 o))
  ++ files (devtools_page o (manifest_3 o))
  ++ files (popup_page o (manifest_4 o))
  ++ [(path_join ["manifest.json"], JsonText (JObj (manifest_of o)))].
Proof.
  rewrite manifest_of_blocks.
  unfold file_plan, synthesize, manifest_4, manifest_3, manifest_2,
    manifest_1, yields, files.
  rewrite !bind_run. cbn [fst snd ret writeFileSync].
  rewrite (fst_appends (popup_page _ _) _ (appends_popup_page _ _)).
  rewrite (snd_appends (popup_page _ _) _ (appends_popup_page _ _)).
  rewrite (fst_appends (devtools_page _ _) _ (appends_devtools_page _ _)).
  rewrite (snd_appends (devtools_page _ _) _ (appends_devtools_page _ _)).
  rewrite (fst_appends (options_page _ _) _ (appends_options_page _ _)).
  rewrite (snd_appends (options_page _ _) _ (appends_options_page _ _)).
  rewrite (fst_appends (content_script _ _) _ (appends_content_script _ _)).
  rewrite (snd_appends (content_script _ _) _ (appends_content_script _ _)).
  rewrite !written_app. cbn [written]. rewrite <- !app_assoc. reflexivity.
Qed.

(* ================================================================== *)
(** ** What each block does to the manifest *)

Lemma yields_background_script o m :
  yields background_script o m =
  if includes "background" (additionalFeatures o) then
    if Z.eqb (manifestVersion o) 3 then
      obj_set m "background"
        (JObj ([("service_worker", JStr "background.js")]
               ++ (if includes "esmodules" (buildOptions o)
                   then [("type", JStr "module")] else [])))
    else
      obj_set m "background"
        (JObj [("scripts", JArr [JStr "background.js"]);
               ("persistent", JBool false)])
  else m.
Proof.
  unfold yields, background_script.
  destruct (includes "background" _); reflexivity.
Qed.

Lemma yields_content_script o m :
  yields content_script o m =
  if includes "content" (additionalFeatures o) then
    obj_set m "content_scripts"
      (JArr [JObj [("matches", JArr [JStr "<all_urls>"]);
                   ("js", JArr [JStr "content.js"])]])
  else m.
Proof.
  unfold yields, content_script.
  destruct (includes "content" _); reflexivity.
Qed.

Lemma yields_options_page o m :
  yields options_page o m =
  if includes "options" (additionalFeatures o) then
    if Z.eqb (manifestVersion o) 3 then
      obj_set m "options_ui"
        (JObj [("page", JStr "options.html"); ("open_in_tab", JBool true)])
    else obj_set m "options_page" (JStr "options.html")
  else m.
Proof.
  unfold yields, options_page.
  destruct (includes "options" _); [|reflexivity].
  destruct (Z.eqb _ 3); reflexivity.
Qed.

Lemma yields_devtools_page o m :
  yields devtools_page o m =
  if devtools_materialized o
  then obj_set m "devtools_page" (JStr "devtools.html") else m.
Proof.
  unfold yields, devtools_page, devtools_materialized.
  destruct (_ && _); reflexivity.
Qed.

Lemma yields_popup_page o m :
  yields popup_page o m =
  if includes "popup" (additionalFeatures o) then
    if Z.eqb (manifestVersion o) 3
    then set_default_popup (ensure_object m "action") "action"
    else set_default_popup (ensure_object m "browser_action") "browser_action"
  else
    if Z.eqb (manifestVersion o) 3
    then ensure_object m "action"
    else ensure_object m "browser_action".
Proof.
  unfold yields, popup_page.
  destruct (includes "popup" _).
  - rewrite !bind_run. reflexivity.
  - destruct (Z.eqb _ 3); reflexivity.
Qed.

Lemma obj_get_ensure_object_other m k k' :
  k <> k' -> obj_get (ensure_object m k') k = obj_get m k.
Proof. intros. unfold ensure_object. now apply obj_get_set_other. Qed.

Lemma obj_get_set_default_popup_other m k k' :
  k <> k' -> obj_get (set_default_popup m k') k = obj_get m k.
Proof.
  intros. unfold set_default_popup.
  destruct (obj_get m k'); [now apply obj_get_set_other|reflexivity].
Qed.

(** The properties a block may assign; any other is left as it was. *)
Lemma background_script_frame o m k :
  k <> "background" ->
  obj_get (yields background_script o m) k = obj_get m k.
Proof.
  intros. rewrite yields_background_script.
  repeat match goal with |- context [if ?b then _ else _] => destruct b end;
    auto using @obj_get_set_other.
Qed.

Lemma content_script_frame o m k :
  k <> "content_scripts" ->
  obj_get (yields content_script o m) k = obj_get m k.
Proof.
  intros. rewrite yields_content_script.
  destruct (includes _ _); auto using @obj_get_set_other.
Qed.

Lemma options_page_frame o m k :
  k <> "options_ui" -> k <> "options_page" ->
  obj_get (yields options_page o m) k = obj_get m k.
Proof.
  intros. rewrite yields_options_page.
  destruct (includes _ _); [destruct (Z.eqb _ _)|];
    auto using @obj_get_set_other.
Qed.

Lemma devtools_page_frame o m k :
  k <> "devtools_page" ->
  obj_get (yields devtools_page o m) k = obj_get m k.
Proof.
  intros. rewrite yields_devtools_page.
  destruct (devtools_materialized o); auto using @obj_get_set_other.
Qed.

Lemma popup_page_frame o m k :
  k <> "action" -> k <> "browser_action" ->
  obj_get (yields popup_page o m) k = obj_get m k.
Proof.
  intros. rewrite yields_popup_page.
  destruct (includes _ _); destruct (Z.eqb _ _);
    rewrite ?obj_get_set_default_popup_other by assumption;
    now apply obj_get_ensure_object_other.
Qed.

Lemma manifest_start_frame o k :
  k <> "icons" -> obj_get (manifest_start o) k = obj_get (manifest_literal o) k.
Proof.
  intros. unfold manifest_start.
  destruct (Nat.ltb _ _); [now apply obj_get_set_other|reflexivity].
Qed.

(** A property the blocks so far never assign has the value the object
    literal gave it. *)
Lemma manifest_3_frame o k :
  ~ In k ["icons"; "background"; "content_scripts"; "options_ui";
          "options_page"] ->
  obj_get (manifest_3 o) k = obj_get (manifest_literal o) k.
Proof.
  intros Hk. cbn in Hk.
  unfold manifest_3, manifest_2, manifest_1.
  rewrite options_page_frame, content_script_frame, background_script_frame,
    manifest_start_frame; try reflexivity; intros ->; tauto.
Qed.

Lemma manifest_4_frame o k :
  ~ In k ["icons"; "background"; "content_scripts"; "options_ui";
          "options_page"; "devtools_page"] ->
  obj_get (manifest_4 o) k = obj_get (manifest_literal o) k.
Proof.
  intros Hk. cbn in Hk.
  unfold manifest_4.
  rewrite devtools_page_frame, manifest_3_frame;
    try reflexivity; cbn; try intros ->; tauto.
Qed.

Lemma manifest_of_frame o k :
  ~ In k ["icons"; "background"; "content_scripts"; "options_ui";
          "options_page"; "devtools_page"; "action"; "browser_action"] ->
  obj_get (manifest_of o) k = obj_get (manifest_literal o) k.
Proof.
  intros Hk. cbn in Hk.
  rewrite manifest_of_blocks, popup_page_frame, manifest_4_frame;
    try reflexivity; cbn; try intros ->; tauto.
Qed.

Lemma manifest_of_devtools_page o :
  obj_get (manifest_of o) "devtools_page" =
  if devtools_materialized o then Some (JStr "devtools.html") else None.
Proof.
  rewrite manifest_of_blocks, popup_page_frame by discriminate.
  unfold manifest_4. rewrite yields_devtools_page.
  destruct (devtools_materialized o).
  - apply obj_get_set_same.
  - rewrite manifest_3_frame; [reflexivity|].
    cbn. intuition discriminate.
Qed.

(* ================================================================== *)
(** ** The fixed part of the manifest *)

(** C10: the manifest of any options has [version] "1.0.0", and its
    [name], [description] and [permissions] are those of the options,
    whatever the manifest version, the features and the build options
    (its [manifest_version] is the version of the options too). *)
Theorem manifest_fixed_fields (o : Options) :
  obj_get (manifest_of o) "version" = Some (JStr "1.0.0")
  /\ obj_get (manifest_of o) "name" = Some (JStr (extensionName o))
  /\ obj_get (manifest_of o) "description"
     = Some (JStr (extensionDescription o))
  /\ obj_get (manifest_of o) "permissions"
     = Some (JArr (map JStr (permissions o)))
  /\ obj_get (manifest_of o) "manifest_version"
     = Some (JNum (manifestVersion o)).
Proof.
  repeat split; (rewrite manifest_of_frame;
                 [reflexivity | cbn; intuition discriminate]).
Qed.

(* ================================================================== *)
(** ** The popup stub *)

(** C8: when the popup feature is not selected the manifest still has
    an empty object as [action] under version 3 and as [browser_action]
    under version 2. *)
Theorem popup_stub_emitted (o : Options) :
  includes "popup" (additionalFeatures o) = false ->
  (manifestVersion o = 3%Z ->
   obj_get (manifest_of o) "action" = Some (JObj []))
  /\ (manifestVersion o = 2%Z ->
      obj_get (manifest_of o) "browser_action" = Some (JObj [])).
Proof.
  intros Hpopup.
  rewrite manifest_of_blocks, yields_popup_page, Hpopup.
  split; intros ->; cbn [Z.eqb Pos.eqb]; unfold ensure_object;
    rewrite obj_get_set_same, manifest_4_frame;
    try reflexivity; cbn; intuition discriminate.
Qed.

(* ================================================================== *)
(** ** No field of the other manifest version *)

Lemma mentions_obj_cons k k' v r :
  mentions k (JObj ((k', v) :: r))
  = (String.eqb k k' || mentions k v) || mentions k (JObj r).
Proof. reflexivity. Qed.

Lemma mentions_obj_set k m k' v :
  mentions k (JObj m) = false ->
  String.eqb k k' = false ->
  mentions k v = false ->
  mentions k (JObj (obj_set m k' v)) = false.
Proof.
  intros Hm Hk Hv. induction m as [|[k1 v1] r IH].
  - cbn. now rewrite Hk, Hv.
  - rewrite mentions_obj_cons in Hm.
    apply orb_false_elim in Hm as [Hm1 Hr].
    apply orb_false_elim in Hm1 as [Hk1 Hv1].
    cbn [obj_set]. destruct (String.eqb k' k1).
    + rewrite mentions_obj_cons, Hk1, Hv, Hr. reflexivity.
    + rewrite mentions_obj_cons, Hk1, Hv1, (IH Hr). reflexivity.
Qed.

Lemma mentions_obj_get k m k' v :
  obj_get m k' = Some v -> mentions k (JObj m) = false -> mentions k v = false.
Proof.
  induction m as [|[k1 v1] r IH]; cbn [obj_get]; [discriminate|].
  rewrite mentions_obj_cons. intros Hget Hm.
  apply orb_false_elim in Hm as [Hm1 Hr].
  apply orb_false_elim in Hm1 as [_ Hv1].
  destruct (String.eqb k' k1).
  - now injection Hget as <-.
  - now apply IH.
Qed.

Lemma mentions_ensure_object k m k' :
  mentions k (JObj m) = false ->
  String.eqb k k' = false ->
  mentions k (JObj (ensure_object m k')) = false.
Proof.
  intros Hm Hk. unfold ensure_object.
  apply mentions_obj_set; auto.
  unfold or_else. destruct (obj_get m k') as [v|] eqn:E; [|reflexivity].
  destruct (truthy v); [|reflexivity].
  eapply mentions_obj_get; eauto.
Qed.

Lemma mentions_set_default_popup k m k' :
  mentions k (JObj m) = false ->
  String.eqb k k' = false ->
  String.eqb k "default_popup" = false ->
  mentions k (JObj (set_default_popup m k')) = false.
Proof.
  intros Hm Hk Hd. unfold set_default_popup.
  destruct (obj_get m k') as [v|] eqn:E; [|assumption].
  apply mentions_obj_set; auto.
  pose proof (mentions_obj_get _ _ _ _ E Hm) as Hv.
  destruct v; cbn [set_prop]; auto.
  apply mentions_obj_set; auto.
Qed.

Lemma mentions_strings k l : mentions k (JArr (map JStr l)) = false.
Proof. induction l; cbn in *; auto. Qed.

Lemma mentions_icons k (ics : obj string) :
  all_among ["16"; "48"; "128"] (keys ics) = true ->
  includes k ["16"; "48"; "128"] = false ->
  mentions k (JObj (map (fun kv => (fst kv, JStr (snd kv))) ics)) = false.
Proof.
  intros Hall Hk. induction ics as [|[k1 v1] r IH]; [reflexivity|].
  cbn [map fst snd]. rewrite mentions_obj_cons.
  cbn [keys map fst all_among forallb] in Hall.
  apply andb_prop in Hall as [H1 Hr].
  rewrite (IH Hr). cbn [mentions]. rewrite !orb_false_r.
  destruct (String.eqb k k1) eqn:E; [|reflexivity].
  apply String.eqb_eq in E. subst k1. congruence.
Qed.

Lemma valid_options_icons o :
  valid_options o = true -> all_among ["16"; "48"; "128"] (keys (icons o)) = true.
Proof.
  unfold valid_options. intros H.
  repeat (apply andb_prop in H as [H ?]). assumption.
Qed.

Lemma mentions_manifest_start o k :
  valid_options o = true ->
  includes k ["manifest_version"; "name"; "version"; "description";
              "permissions"; "icons"; "16"; "48"; "128"] = false ->
  mentions k (JObj (manifest_start o)) = false.
Proof.
  intros Hvalid Hk. apply valid_options_icons in Hvalid.
  cbn [includes existsb] in Hk. rewrite !orb_false_r in Hk.
  repeat (apply orb_false_elim in Hk as [? Hk]).
  assert (Hlit : mentions k (JObj (manifest_literal o)) = false).
  { unfold manifest_literal. rewrite !mentions_obj_cons, mentions_strings.
    cbn [mentions existsb].
    repeat match goal with H : String.eqb k _ = false |- _ =>
             rewrite H; clear H end.
    reflexivity. }
  unfold manifest_start. destruct (Nat.ltb _ _); [|assumption].
  apply mentions_obj_set; auto.
  apply mentions_icons; auto.
  cbn [includes existsb]. rewrite !orb_false_r.
  repeat match goal with H : String.eqb k _ = false |- _ => rewrite H end.
  reflexivity.
Qed.

(** The blocks leave a manifest free of the property name [k] when none
    of them writes it, and each proof obligation is a closed
    computation. *)
Ltac no_mention :=
  repeat match goal with
         | |- context [if ?b then _ else _] => destruct b
         end;
  repeat first
    [ apply mentions_ensure_object
    | apply mentions_set_default_popup
    | apply mentions_obj_set
    | apply mentions_manifest_start ];
  solve [ assumption | reflexivity ].

Lemma manifest_of_unfolded o :
  manifest_of o =
  yields popup_page o
    (yields devtools_page o
       (yields options_page o
          (yields content_script o
             (yields background_script o (manifest_start o))))).
Proof. apply manifest_of_blocks. Qed.

(** C2: the manifest of valid options of version 3 has, at no depth, a
    property [devtools_page], [browser_action] or [scripts]; that of valid
    options of version 2 has none named [service_worker], [action] or
    [options_ui]. *)
Theorem no_cross_version_fields (o : Options) :
  valid_options o = true ->
  (manifestVersion o = 3%Z ->
   mentions "devtools_page" (JObj (manifest_of o)) = false
   /\ mentions "browser_action" (JObj (manifest_of o)) = false
   /\ mentions "scripts" (JObj (manifest_of o)) = false)
  /\ (manifestVersion o = 2%Z ->
      mentions "service_worker" (JObj (manifest_of o)) = false
      /\ mentions "action" (JObj (manifest_of o)) = false
      /\ mentions "options_ui" (JObj (manifest_of o)) = false).
Proof.
  intros Hvalid.
  rewrite manifest_of_unfolded, yields_popup_page, yields_devtools_page,
    yields_options_page, yields_content_script, yields_background_script.
  unfold devtools_materialized.
  split; intros ->; cbn [Z.eqb Pos.eqb]; rewrite ?andb_false_r, ?andb_true_r;
    repeat split; no_mention.
Qed.

(* ================================================================== *)
(** ** The feature properties of the manifest *)

Ltac not_among := cbn; intuition discriminate.

Lemma manifest_of_background o :
  obj_get (manifest_of o) "background" =
  if includes "background" (additionalFeatures o) then
    Some (if Z.eqb (manifestVersion o) 3 then
            JObj ([("service_worker", JStr "background.js")]
                  ++ (if includes "esmodules" (buildOptions o)
                      then [("type", JStr "module")] else []))
          else
            JObj [("scripts", JArr [JStr "background.js"]);
                  ("persistent", JBool false)])
  else None.
Proof.
  rewrite manifest_of_unfolded.
  rewrite popup_page_frame, devtools_page_frame, options_page_frame,
    content_script_frame by discriminate.
  rewrite yields_background_script.
  destruct (includes "background" _).
  - destruct (Z.eqb _ 3); now rewrite obj_get_set_same.
  - now rewrite manifest_start_frame by discriminate.
Qed.


Lemma manifest_of_options_ui o :
  obj_get (manifest_of o) "options_ui" =
  if includes "options" (additionalFeatures o) && Z.eqb (manifestVersion o) 3
  then Some (JObj [("page", JStr "options.html"); ("open_in_tab", JBool true)])
  else None.
Proof.
  rewrite manifest_of_unfolded.
  rewrite popup_page_frame, devtools_page_frame by discriminate.
  rewrite yields_options_page.
  destruct (includes "options" _); cbn [andb]; [destruct (Z.eqb _ 3)|].
  - now rewrite obj_get_set_same.
  - now rewrite obj_get_set_other, content_script_frame,
      background_script_frame, manifest_start_frame by discriminate.
  - now rewrite content_script_frame,
      background_script_frame, manifest_start_frame by discriminate.
Qed.

Lemma manifest_of_options_page o :
  obj_get (manifest_of o) "options_page" =
  if includes "options" (additionalFeatures o)
     && negb (Z.eqb (manifestVersion o) 3)
  then Some (JStr "options.html") else None.
Proof.
  rewrite manifest_of_unfolded.
  rewrite popup_page_frame, devtools_page_frame by discriminate.
  rewrite yields_options_page.
  destruct (includes "options" _); cbn [andb]; [destruct (Z.eqb _ 3)|];
    cbn [negb].
  - now rewrite obj_get_set_other, content_script_frame,
      background_script_frame, manifest_start_frame by discriminate.
  - now rewrite obj_get_set_same.
  - now rewrite content_script_frame,
      background_script_frame, manifest_start_frame by discriminate.
Qed.

Lemma obj_get_ensure_object_fresh m k :
  obj_get m k = None -> obj_get (ensure_object m k) k = Some (JObj []).
Proof.
  intros H. unfold ensure_object. now rewrite obj_get_set_same, H.
Qed.

Lemma obj_get_popup_fresh m k :
  obj_get m k = None ->
  obj_get (set_default_popup (ensure_object m k) k) k
  = Some (JObj [("default_popup", JStr "popup.html")]).
Proof.
  intros H. unfold set_default_popup.
  rewrite (obj_get_ensure_object_fresh _ _ H).
  now rewrite obj_get_set_same.
Qed.

Lemma manifest_4_no_action o k :
  k = "action" \/ k = "browser_action" -> obj_get (manifest_4 o) k = None.
Proof.
  intros [-> | ->]; now rewrite manifest_4_frame by not_among.
Qed.

Lemma manifest_of_action o :
  obj_get (manifest_of o) "action" =
  if Z.eqb (manifestVersion o) 3 then
    Some (if includes "popup" (additionalFeatures o)
          then JObj [("default_popup", JStr "popup.html")] else JObj [])
  else None.
Proof.
  rewrite manifest_of_blocks, yields_popup_page.
  pose proof (manifest_4_no_action o "action" (or_introl eq_refl)) as Hnone.
  destruct (includes "popup" _); destruct (Z.eqb _ 3).
  - now apply obj_get_popup_fresh.
  - now rewrite obj_get_set_default_popup_other,
      obj_get_ensure_object_other by discriminate.
  - now apply obj_get_ensure_object_fresh.
  - now rewrite obj_get_ensure_object_other by discriminate.
Qed.

Lemma manifest_of_browser_action o :
  obj_get (manifest_of o) "browser_action" =
  if Z.eqb (manifestVersion o) 3 then None
  else Some (if includes "popup" (additionalFeatures o)
             then JObj [("default_popup", JStr "popup.html")] else JObj []).
Proof.
  rewrite manifest_of_blocks, yields_popup_page.
  pose proof (manifest_4_no_action o "browser_action" (or_intror eq_refl))
    as Hnone.
  destruct (includes "popup" _); destruct (Z.eqb _ 3).
  - now rewrite obj_get_set_default_popup_other,
      obj_get_ensure_object_other by discriminate.
  - now apply obj_get_popup_fresh.
  - now rewrite obj_get_ensure_object_other by discriminate.
  - now apply obj_get_ensure_object_fresh.
Qed.


(* ================================================================== *)
(** ** The paths of the file plan *)

Lemma paths_background_script o m :
  map fst (files (background_script o m)) =
  map (filePath o)
    (if includes "background" (additionalFeatures o)
     then [authored_name o "background.js"] else []).
Proof.
  unfold files, background_script, authored_name.
  destruct (includes "background" _); reflexivity.
Qed.

Lemma paths_content_script o m :
  map fst (files (content_script o m)) =
  map (filePath o)
    (if includes "content" (additionalFeatures o)
     then [authored_name o "content.js"] else []).
Proof.
  unfold files, content_script, authored_name.
  destruct (includes "content" _); reflexivity.
Qed.

Lemma paths_options_page o m :
  map fst (files (options_page o m)) =
  map (filePath o)
    (if includes "options" (additionalFeatures o) then ["options.html"] else []).
Proof.
  unfold files, options_page.
  destruct (includes "options" _); [|reflexivity].
  destruct (Z.eqb _ 3); reflexivity.
Qed.

Lemma paths_devtools_page o m :
  map fst (files (devtools_page o m)) =
  map (filePath o) (if devtools_materialized o then ["devtools.html"] else []).
Proof.
  unfold files, devtools_page, devtools_materialized.
  destruct (_ && _); reflexivity.
Qed.

Lemma paths_popup_source o :
  map fst (files (popup_source o)) = map (filePath o) (popup_source_names o).
Proof.
  unfold files, popup_source, popup_source_names.
  destruct (String.eqb (popupLang o) "html"); [reflexivity|].
  destruct (String.eqb (popupLang o) "ts"); [reflexivity|].
  destruct (String.eqb (popupLang o) "react"); reflexivity.
Qed.

Lemma paths_popup_page o m :
  map fst (files (popup_page o m)) =
  map (filePath o)
    (if includes "popup" (additionalFeatures o)
     then popup_source_names o ++ ["popup.html"] else []).
Proof.
  unfold files, popup_page.
  destruct (includes "popup" _).
  - rewrite !bind_run. cbn [fst snd ret writeFileSync].
    rewrite written_app, !map_app, <- paths_popup_source. reflexivity.
  - destruct (Z.eqb _ 3); reflexivity.
Qed.

(** The file plan: the files of the features, each through [filePath],
    then the manifest. *)
Lemma file_plan_paths o :
  map fst (file_plan o) =
  map (filePath o) (source_names o) ++ [path_join ["manifest.json"]].
Proof.
  rewrite file_plan_blocks. unfold source_names.
  rewrite !map_app, paths_background_script, paths_content_script,
    paths_options_page, paths_devtools_page, paths_popup_page.
  rewrite <- !app_assoc. reflexivity.
Qed.

Lemma source_names_known o n :
  In n (source_names o) ->
  In n ["background.ts"; "background.js"; "content.ts"; "content.js";
        "options.html"; "devtools.html"; "popup.js"; "popup.ts";
        "popup.tsx"; "popup.html"].
Proof.
  unfold source_names. rewrite !in_app_iff.
  intros [H | [H | [H | [H | H]]]]; revert H;
    unfold popup_source_names, authored_name;
    repeat match goal with |- context [if ?b then _ else _] => destruct b end;
    cbn; intuition.
Qed.

Lemma filePath_name o n :
  n <> "" -> filePath o n = if useSrcFolder o then ["src"; n] else [n].
Proof.
  intros Hn. apply String.eqb_neq in Hn.
  unfold filePath, path_join. destruct (useSrcFolder o); cbn; now rewrite Hn.
Qed.

Lemma in_file_plan o p d :
  In (p, d) (file_plan o) ->
  (exists n, In n (source_names o) /\ p = filePath o n)
  \/ p = ["manifest.json"].
Proof.
  intros Hin. apply (in_map fst) in Hin. cbn [fst] in Hin.
  rewrite file_plan_paths, in_app_iff, in_map_iff in Hin.
  destruct Hin as [(n & <- & Hn) | [<- | []]]; eauto.
Qed.

Lemma in_file_plan_path o p :
  In p (map fst (file_plan o)) <-> exists d, In (p, d) (file_plan o).
Proof.
  rewrite in_map_iff. split.
  - intros ([p' d] & <- & H). eauto.
  - intros (d & H). exists (p, d). auto.
Qed.


Lemma source_name_plain o n :
  In n (source_names o) -> n <> "" /\ n <> "manifest.json".
Proof.
  intros H. apply source_names_known in H.
  cbn in H. intuition (subst; discriminate).
Qed.

Lemma source_file_placement o n :
  In n (source_names o) ->
  basename (filePath o n) = n
  /\ under_src (filePath o n) = useSrcFolder o.
Proof.
  intros H. destruct (source_name_plain _ _ H) as [Hne _].
  rewrite (filePath_name _ _ Hne). destruct (useSrcFolder o); auto.
Qed.

(* ================================================================== *)
(** ** The source folder *)


(* ================================================================== *)
(** ** The devtools page *)

Lemma devtools_materialized_iff o :
  devtools_materialized o = true <->
  includes "devtools" (additionalFeatures o) = true /\ manifestVersion o = 2%Z.
Proof.
  unfold devtools_materialized. now rewrite andb_true_iff, Z.eqb_eq.
Qed.

Lemma devtools_name_in_sources o :
  In "devtools.html" (source_names o) <-> devtools_materialized o = true.
Proof.
  unfold source_names. rewrite !in_app_iff.
  split.
  - destruct (devtools_materialized o); [reflexivity|].
    intros [H | [H | [H | [H | H]]]]; revert H;
      unfold popup_source_names, authored_name;
      repeat match goal with
             | |- context [if ?b then _ else _] => destruct b
             end; cbn; intuition discriminate.
  - intros ->. do 3 right. left. now left.
Qed.

Lemma run_main_generate a env o w :
  normalize a = inr o ->
  confirmed (proceed a) = true ->
  extDirExists env = false ->
  main a env w = (Success, snd (generate o env w)).
Proof.
  intros Hn Hp Hd. unfold main. rewrite Hn, Hp, Hd. cbn [negb].
  rewrite bind_run. reflexivity.
Qed.

(** C6: the script writes [devtools.html] and gives the manifest a
    [devtools_page] exactly when the devtools feature is selected and the
    manifest version is 2.  Otherwise, and so when devtools is selected
    under version 3, the manifest has no [devtools_page] and no file of
    the plan is named [devtools.html]; the run still ends normally. *)
Theorem devtools_only_under_v2 (o : Options) :
  ((exists d, In (filePath o "devtools.html", d) (file_plan o)) <->
   includes "devtools" (additionalFeatures o) = true
   /\ manifestVersion o = 2%Z)
  /\ (obj_get (manifest_of o) "devtools_page" = Some (JStr "devtools.html") <->
      includes "devtools" (additionalFeatures o) = true
      /\ manifestVersion o = 2%Z)
  /\ (~ (includes "devtools" (additionalFeatures o) = true
         /\ manifestVersion o = 2%Z) ->
      obj_get (manifest_of o) "devtools_page" = None
      /\ forall p d, In (p, d) (file_plan o) -> basename p <> "devtools.html")
  /\ (forall a env w,
        normalize a = inr o ->
        confirmed (proceed a) = true ->
        extDirExists env = false ->
        fst (main a env w) = Success).
Proof.
  rewrite <- devtools_materialized_iff.
  repeat split.
  - intros Hex. apply in_file_plan_path in Hex.
    rewrite file_plan_paths, in_app_iff, in_map_iff in Hex.
    destruct Hex as [(n & Heq & Hn) | [Heq | []]].
    + destruct (source_file_placement _ _ Hn) as [Hb _].
      rewrite Heq in Hb.
      assert (n = "devtools.html") as ->.
      { rewrite <- Hb. unfold filePath, path_join.
        now destruct (useSrcFolder o). }
      now apply devtools_name_in_sources.
    + unfold filePath, path_join in Heq.
      destruct (useSrcFolder o); discriminate.
  - intros Hm. apply in_file_plan_path.
    rewrite file_plan_paths, in_app_iff. left.
    apply in_map. now apply devtools_name_in_sources.
  - rewrite manifest_of_devtools_page.
    destruct (devtools_materialized o); [reflexivity|discriminate].
  - intros Hm. now rewrite manifest_of_devtools_page, Hm.
  - rewrite manifest_of_devtools_page.
    destruct (devtools_materialized o); [tauto|reflexivity].
  - intros p d Hin Hbase.
    destruct (in_file_plan _ _ _ Hin) as [(n & Hn & ->) | ->];
      [|discriminate].
    destruct (source_file_placement _ _ Hn) as [Hb _].
    rewrite Hb in Hbase. subst n.
    apply devtools_name_in_sources in Hn. tauto.
  - intros a env w Hn Hp Hd.
    now rewrite (run_main_generate _ _ _ _ Hn Hp Hd).
Qed.

(* ================================================================== *)
(** ** Referential integrity *)







(* ================================================================== *)
(** ** The questions and their checks *)

(** Whatever the answers, a run that ends through [process.exit] has
    written nothing. *)
Lemma exit_before_any_write a env w code message :
  fst (main a env w) = Exit code message -> snd (main a env w) = w.
Proof.
  unfold main. destruct (normalize a) as [e|o]; [reflexivity|].
  destruct (negb _); [reflexivity|].
  destruct (extDirExists env); [reflexivity|].
  rewrite bind_run. discriminate.
Qed.

(** Options come out of the checks only for answers that hold a name, a
    description and a version, and then hold them trimmed. *)
Lemma normalize_trims a o :
  normalize a = inr o ->
  exists name description,
    extNameRaw a = Value name /\ extDescRaw a = Value description
    /\ extensionName o = trim name
    /\ extensionDescription o = trim description.
Proof.
  unfold normalize.
  destruct (extNameRaw a) as [name|]; [|discriminate].
  destruct (extDescRaw a) as [description|]; [|discriminate].
  destruct (versionRaw a) as [version|]; [|discriminate].
  destruct (Nat.eqb _ 0); [discriminate|].
  intros [= <-]. exists name, description. auto.
Qed.

Lemma normalize_empty_permissions a :
  array_or_empty (permissionsRaw a) = [] ->
  exists message, normalize a = inl (Exit 1 message).
Proof.
  intros Hperm. unfold normalize. rewrite Hperm.
  destruct (extNameRaw a); [|eauto].
  destruct (extDescRaw a); [|eauto].
  destruct (versionRaw a); [|eauto].
  cbn. eauto.
Qed.

(** C9: with no permission picked the run ends with exit code 1 and
    leaves the trace of file operations as it was: no manifest, no file
    and no [package.json] is written.  When the earlier questions (name,
    description, version) were answered, the message is the one of the
    permission check. *)
Theorem empty_permissions_rejected (a : Answers) (env : Env) (w : list fs_op) :
  array_or_empty (permissionsRaw a) = [] ->
  (exists message, main a env w = (Exit 1 message, w))
  /\ (forall name description version,
        extNameRaw a = Value name ->
        extDescRaw a = Value description ->
        versionRaw a = Value version ->
        main a env w = (Exit 1 "At least one permission is required.", w)).
Proof.
  intros Hperm. split.
  - destruct (normalize_empty_permissions a Hperm) as [message Hn].
    exists message. unfold main. now rewrite Hn.
  - intros name description version Hname Hdesc Hver.
    unfold main, normalize. now rewrite Hname, Hdesc, Hver, Hperm.
Qed.

Lemma empty_permissions_rejected_witness :
  (exists message,
      main Examples.no_permission Examples.free_directory []
      = (Exit 1 message, []))
  /\ (forall name description version,
        extNameRaw Examples.no_permission = Value name ->
        extDescRaw Examples.no_permission = Value description ->
        versionRaw Examples.no_permission = Value version ->
        main Examples.no_permission Examples.free_directory []
        = (Exit 1 "At least one permission is required.", [])).
Proof.
  apply (empty_permissions_rejected Examples.no_permission
           Examples.free_directory []).
  reflexivity.
Defined.

(** The checks of name and description look at the type of the answer
    only: any two texts pass, blank ones too. *)
Lemma normalize_accepts_any_text a name description version :
  extNameRaw a = Value name ->
  extDescRaw a = Value description ->
  versionRaw a = Value version ->
  array_or_empty (permissionsRaw a) <> [] ->
  exists o, normalize a = inr o
            /\ extensionName o = trim name
            /\ extensionDescription o = trim description.
Proof.
  intros Hname Hdesc Hver Hperm. unfold normalize.
  rewrite Hname, Hdesc, Hver.
  destruct (array_or_empty (permissionsRaw a)); [contradiction|].
  cbn. eauto.
Qed.

(** C3, the run that shows the gap: a description of three spaces
    passes the checks, is trimmed to the empty string, and the run ends
    normally with a manifest whose [description] is empty. *)
Theorem blank_description_accepted :
  exists o,
    normalize Examples.blank_description = inr o
    /\ extensionDescription o = ""
    /\ fst (main Examples.blank_description Examples.free_directory [])
       = Success
    /\ In (["manifest.json"], JsonText (JObj (manifest_of o)))
          (written
             (snd (main Examples.blank_description Examples.free_directory [])))
    /\ obj_get (manifest_of o) "description" = Some (JStr "").
Proof.
  eexists. split; [reflexivity|].
  split; [reflexivity|]. split; [reflexivity|].
  split; [|reflexivity].
  vm_compute. tauto.
Qed.

(* ================================================================== *)
(** ** Build options and package.json *)

Lemma includes_In x l : includes x l = true <-> In x l.
Proof.
  unfold includes. rewrite existsb_exists. split.
  - intros (y & Hy & E). apply String.eqb_eq in E. now subst.
  - intros H. exists x. split; [assumption|apply String.eqb_refl].
Qed.

Lemma none_collapses raw : In "none" raw -> ask_buildOptions (Value raw) = [].
Proof.
  intros H. apply includes_In in H.
  unfold ask_buildOptions. cbn [array_or_empty]. now rewrite H.
Qed.

Lemma normalize_buildOptions a o :
  normalize a = inr o -> buildOptions o = ask_buildOptions (buildOptionsRaw a).
Proof.
  unfold normalize.
  destruct (extNameRaw a); [|discriminate].
  destruct (extDescRaw a); [|discriminate].
  destruct (versionRaw a); [|discriminate].
  destruct (Nat.eqb _ 0); [discriminate|].
  now intros [= <-].
Qed.

(** What a whole run writes: the file plan, then [package.json] if any,
    then [TODO.md]. *)
Lemma generate_written o env :
  written (snd (generate o env [])) =
  file_plan o
  ++ files (package_json o env)
  ++ [(["TODO.md"], Text (join nl (todoLines o)))].
Proof.
  unfold generate, file_plan, files.
  rewrite !bind_run. cbn [fst snd writeFileSync].
  rewrite (snd_appends (package_json _ _) _ (appends_package_json _ _)).
  rewrite (snd_appends (synthesize _) _ (appends_synthesize _)).
  rewrite !written_app.
  assert (Hdirs : written (snd ((if useSrcFolder o
                                 then mkdirSync (path_join ["src"])
                                 else ret tt)
                                (snd (mkdirSync (path_join []) [])))) = []).
  { now destruct (useSrcFolder o). }
  rewrite Hdirs. cbn [app written path_join filter String.eqb negb].
  now rewrite <- app_assoc.
Qed.

Lemma package_json_skipped o env :
  buildOptions o = [] -> files (package_json o env) = [].
Proof. intros H. unfold files, package_json. now rewrite H. Qed.

Lemma package_json_written o env :
  buildOptions o <> [] ->
  files (package_json o env) =
  [(["package.json"],
    PackageText (resolve_package o match existingPkg env with
                                   | Some parsed => parsed
                                   | None => empty_pkg
                                   end))].
Proof.
  intros H. unfold files, package_json.
  destruct (buildOptions o); [contradiction|reflexivity].
Qed.

Lemma file_plan_not_package_json o d :
  ~ In (["package.json"], d) (file_plan o).
Proof.
  intros Hin.
  destruct (in_file_plan _ _ _ Hin) as [(n & Hn & Heq) | Heq];
    [|discriminate].
  destruct (source_file_placement _ _ Hn) as [Hb _].
  rewrite <- Heq in Hb. cbn in Hb. subst n.
  apply source_names_known in Hn. cbn in Hn. intuition discriminate.
Qed.

Lemma no_package_json_without_build_options o env d :
  buildOptions o = [] ->
  ~ In (["package.json"], d) (written (snd (generate o env []))).
Proof.
  intros Hempty.
  rewrite generate_written, (package_json_skipped _ _ Hempty), !in_app_iff.
  intros [Hin | [[] | [Heq | []]]]; [|discriminate].
  now apply file_plan_not_package_json in Hin.
Qed.

(** C4: build options that hold "none" become the empty list, whatever
    else they hold; and a run whose build options are empty writes no
    [package.json].  So a run on answers with "none" among the build
    options writes none. *)
Theorem none_overrides_build_options :
  (forall raw, In "none" raw -> ask_buildOptions (Value raw) = [])
  /\ (forall a raw o,
        buildOptionsRaw a = Value raw -> In "none" raw ->
        normalize a = inr o -> buildOptions o = [])
  /\ (forall o env d,
        buildOptions o = [] ->
        ~ In (["package.json"], d) (written (snd (generate o env []))))
  /\ (forall a env raw d,
        buildOptionsRaw a = Value raw -> In "none" raw ->
        ~ In (["package.json"], d) (written (snd (main a env [])))).
Proof.
  assert (Hnorm : forall a raw o,
             buildOptionsRaw a = Value raw -> In "none" raw ->
             normalize a = inr o -> buildOptions o = []).
  { intros a raw o Hraw Hnone Hn.
    rewrite (normalize_buildOptions _ _ Hn), Hraw.
    now apply none_collapses. }
  split; [exact none_collapses|]. split; [exact Hnorm|].
  split; [intros; now apply no_package_json_without_build_options|].
  intros a env raw d Hraw Hnone.
  unfold main. destruct (normalize a) as [e|o] eqn:Hn; [cbn; tauto|].
  destruct (negb _); [cbn; tauto|].
  destruct (extDirExists env); [cbn; tauto|].
  rewrite bind_run. cbn [snd ret].
  apply no_package_json_without_build_options. eauto.
Qed.

(** "none" next to a bundler: no [package.json]; the bundler alone: a
    [package.json] with the bundler's packages. *)
Example none_with_webpack :
  map fst (written (snd (main (Examples.with_build_options
                                 ["bundler-webpack"; "none"])
                           Examples.free_directory [])))
  = [["manifest.json"]; ["TODO.md"]].
Proof. reflexivity. Qed.

Example webpack_alone :
  map fst (written (snd (main (Examples.with_build_options
                                 ["bundler-webpack"])
                           Examples.free_directory [])))
  = [["manifest.json"]; ["package.json"]; ["TODO.md"]].
Proof. reflexivity. Qed.

(* ================================================================== *)
(** ** The merge into package.json *)


























Example merge_into_custom_build_script :
  resolve_package Examples.bundled Examples.custom_build_script
  = {| pkg_name := Some "demo";
       pkg_version := Some "0.3.0";
       pkg_scripts := Some [("build", "custom"); ("test", "jest")];
       pkg_devDependencies :=
         Some [("typescript", "^5.4.0"); ("webpack", "^5.0.0");
               ("webpack-cli", "^4.0.0"); ("@types/jquery", "^3.5.14")];
       pkg_dependencies := Some [("jquery", "^3.6.0")];
       pkg_rest := [("license", JStr "MIT")] |}.
Proof. reflexivity. Qed.

Example merge_into_nothing :
  resolve_package Examples.bundled empty_pkg
  = {| pkg_name := Some "my-demo";
       pkg_version := Some "1.0.0";
       pkg_scripts := Some [("build", "tsc")];
       pkg_devDependencies :=
         Some [("webpack", "^5.0.0"); ("webpack-cli", "^4.0.0");
               ("typescript", "^4.9.5"); ("@types/jquery", "^3.5.14")];
       pkg_dependencies := Some [("jquery", "^3.6.0")];
       pkg_rest := [] |}.
Proof. reflexivity. Qed.

(* ================================================================== *)
(** ** The properties at concrete options *)

Lemma no_cross_version_fields_witness :
  (mentions "devtools_page" (JObj (manifest_of (Examples.all_features 3))) = false
   /\ mentions "browser_action" (JObj (manifest_of (Examples.all_features 3)))
      = false
   /\ mentions "scripts" (JObj (manifest_of (Examples.all_features 3))) = false)
  /\ (mentions "service_worker" (JObj (manifest_of (Examples.all_features 2)))
      = false
      /\ mentions "action" (JObj (manifest_of (Examples.all_features 2))) = false
      /\ mentions "options_ui" (JObj (manifest_of (Examples.all_features 2)))
         = false).
Proof.
  split.
  - apply (proj1 (no_cross_version_fields (Examples.all_features 3) eq_refl)).
    reflexivity.
  - apply (proj2 (no_cross_version_fields (Examples.all_features 2) eq_refl)).
    reflexivity.
Defined.

Lemma popup_stub_emitted_witness :
  obj_get (manifest_of (Examples.no_popup 3)) "action" = Some (JObj [])
  /\ obj_get (manifest_of (Examples.no_popup 2)) "browser_action"
     = Some (JObj []).
Proof.
  split.
  - apply (proj1 (popup_stub_emitted (Examples.no_popup 3) eq_refl)).
    reflexivity.
  - apply (proj2 (popup_stub_emitted (Examples.no_popup 2) eq_refl)).
    reflexivity.
Defined.

(** Each version does carry its own fields. *)
Example own_fields_present :
  map (fun k => mentions k (JObj (manifest_of (Examples.all_features 3))))
      ["service_worker"; "action"; "options_ui"]
  = [true; true; true]
  /\ map (fun k => mentions k (JObj (manifest_of (Examples.all_features 2))))
       ["devtools_page"; "browser_action"; "scripts"]
     = [true; true; true].
Proof. split; reflexivity. Qed.

(** Devtools selected under both versions. *)
Example devtools_under_each_version :
  map fst (file_plan (Examples.all_features 2))
  = [["background.js"]; ["content.js"]; ["options.html"]; ["devtools.html"];
     ["popup.js"]; ["popup.html"]; ["manifest.json"]]
  /\ map fst (file_plan (Examples.all_features 3))
     = [["background.js"]; ["content.js"]; ["options.html"];
        ["popup.js"]; ["popup.html"]; ["manifest.json"]]
  /\ keys (manifest_of (Examples.all_features 2))
     = ["manifest_version"; "name"; "version"; "description"; "permissions";
        "icons"; "background"; "content_scripts"; "options_page";
        "devtools_page"; "browser_action"]
  /\ keys (manifest_of (Examples.all_features 3))
     = ["manifest_version"; "name"; "version"; "description"; "permissions";
        "icons"; "background"; "content_scripts"; "options_ui"; "action"].
Proof. repeat split; reflexivity. Qed.

(** The source folder moves the sources, not the manifest. *)
Example popup_in_src_plan :
  map fst (file_plan Examples.popup_in_src)
  = [["src"; "popup.js"]; ["src"; "popup.html"]; ["manifest.json"]]
  /\ referenced_files (manifest_of Examples.popup_in_src) = ["popup.html"].
Proof. split; reflexivity. Qed.

(** The jQuery tag goes right before the end of the head. *)
Example options_page_with_jquery :
  with_jquery_cdn (Examples.all_features 3)
    (html_page "Options" ["  <h1>Extension Options</h1>"])
  = unlines
      ["<!DOCTYPE html>";
       "<html>";
       "<head>";
       "  <meta charset=" +++ dq +++ "utf-8" +++ dq +++ ">";
       "  <title>Options</title>";
       "  <script src=" +++ dq
         +++ "https://code.jquery.com/jquery-3.6.0.min.js" +++ dq
         +++ "></script>";
       "</head>";
       "<body>";
       "  <h1>Extension Options</h1>";
       "</body>";
       "</html>"].
Proof. reflexivity. Qed.

Example trim_examples :
  trim "  My Extension  " = "My Extension"
  /\ trim "   " = ""
  /\ replace_spaces false (toLowerCase "My  Cool Extension") = "my-cool-extension".
Proof. repeat split; reflexivity. Qed.

(* ================================================================== *)
(** ** Icons *)

Lemma add_icon_entries icons size icon k v :
  obj_get (add_icon icons size icon) k = Some v ->
  obj_get icons k = Some v \/ (k = size /\ v = icon /\ icon <> "").
Proof.
  unfold add_icon. destruct (String.eqb icon "") eqn:E; [auto|].
  apply String.eqb_neq in E.
  destruct (string_dec k size) as [-> | Hne].
  - rewrite obj_get_set_same. intros [= <-]. auto.
  - rewrite obj_get_set_other by assumption. auto.
Qed.

Lemma add_icon_keys icons size icon :
  incl (keys (add_icon icons size icon)) (size :: keys icons).
Proof.
  unfold add_icon. destruct (String.eqb icon ""); [apply incl_tl, incl_refl|].
  induction icons as [|[k v] r IH]; cbn.
  - apply incl_refl.
  - destruct (String.eqb size k) eqn:E; cbn.
    + apply incl_tl, incl_refl.
    + intros x [<- | Hx]; [right; now left|].
      destruct (IH x Hx) as [<- | H]; [now left|right; now right].
Qed.

(** The icons asked for (source lines 81 to 95): an entry is one of the
    sizes 16, 48 and 128 and holds the trimmed answer, which is not
    blank; a blank or cancelled answer gives no entry, and declining the
    icons gives none at all. *)
Theorem icons_from_answers (a : Answers) :
  (forall k v, obj_get (ask_icons a) k = Some v ->
     v <> ""
     /\ ((k = "16" /\ v = trimmed_or_blank (icon16Raw a))
         \/ (k = "48" /\ v = trimmed_or_blank (icon48Raw a))
         \/ (k = "128" /\ v = trimmed_or_blank (icon128Raw a))))
  /\ all_among ["16"; "48"; "128"] (keys (ask_icons a)) = true
  /\ (addIconsResp a = Value false -> ask_icons a = [])
  /\ (confirmed (addIconsResp a) = true ->
      trimmed_or_blank (icon48Raw a) <> "" ->
      obj_get (ask_icons a) "48" = Some (trimmed_or_blank (icon48Raw a))).
Proof.
  repeat split.
  - revert H. unfold ask_icons.
    destruct (confirmed _); [|discriminate].
    intros H. repeat (apply add_icon_entries in H as [H | (_ & -> & H)]); auto.
    discriminate.
  - revert H. unfold ask_icons.
    destruct (confirmed _); [|discriminate].
    intros H.
    repeat (apply add_icon_entries in H as [H | (-> & -> & H)]); auto.
    discriminate.
  - unfold ask_icons. destruct (confirmed _); [|reflexivity].
    unfold all_among. apply forallb_forall. intros x Hx.
    apply includes_In.
    repeat (apply add_icon_keys in Hx; destruct Hx as [<- | Hx];
            [cbn; tauto|]).
    contradiction.
  - intros H. unfold ask_icons. now rewrite H.
  - intros Hc H48. unfold ask_icons. rewrite Hc.
    apply String.eqb_neq in H48.
    unfold add_icon at 1.
    destruct (String.eqb (trimmed_or_blank (icon128Raw a)) "").
    + unfold add_icon at 1. rewrite H48. apply obj_get_set_same.
    + rewrite obj_get_set_other by discriminate.
      unfold add_icon at 1. rewrite H48. apply obj_get_set_same.
Qed.

Lemma manifest_of_icons o :
  obj_get (manifest_of o) "icons" =
  match icons o with
  | [] => None
  | _ => Some (JObj (map (fun kv => (fst kv, JStr (snd kv))) (icons o)))
  end.
Proof.
  rewrite manifest_of_unfolded.
  rewrite popup_page_frame, devtools_page_frame, options_page_frame,
    content_script_frame, background_script_frame by discriminate.
  unfold manifest_start. destruct (icons o) as [|kv r]; [reflexivity|].
  cbn [keys map List.length Nat.ltb Nat.leb].
  apply obj_get_set_same.
Qed.

(** The manifest has [icons] exactly when some icon was given, and then
    it lists the given icons in order (source lines 210 to 212). *)
Theorem manifest_icons_iff (o : Options) :
  (obj_get (manifest_of o) "icons" = None <-> icons o = [])
  /\ (icons o <> [] ->
      obj_get (manifest_of o) "icons"
      = Some (JObj (map (fun kv => (fst kv, JStr (snd kv))) (icons o)))).
Proof.
  rewrite manifest_of_icons. destruct (icons o) as [|kv r].
  - split; [tauto|]. intros H. now elim H.
  - split; [split; discriminate|reflexivity].
Qed.

(* ================================================================== *)
(** ** The shape of the file plan *)

Ltac split_ifs :=
  repeat match goal with
         | |- context [if ?b then _ else _] => destruct b
         end.

Lemma distinct_paths_NoDup l : distinct_paths l = true -> NoDup l.
Proof.
  induction l as [|p r IH]; cbn; [constructor|].
  intros H. apply andb_prop in H as [Hp Hr].
  constructor; [|auto].
  intros Hin. apply negb_true_iff in Hp.
  assert (existsb (fun q => if list_eq_dec string_dec p q then true else false) r
          = true); [|congruence].
  apply existsb_exists. exists p. split; [assumption|].
  now destruct (list_eq_dec string_dec p p).
Qed.

(** No two files of the plan have the same path, whatever the options:
    no write of lines 214 to 369 overwrites an earlier one. *)
Theorem file_plan_paths_distinct (o : Options) :
  NoDup (map fst (file_plan o)).
Proof.
  apply distinct_paths_NoDup.
  rewrite file_plan_paths.
  unfold source_names, popup_source_names, filePath.
  change (authored_name o "background.js")
    with (if String.eqb (backgroundLang o) "ts"
          then "background.ts" else "background.js").
  change (authored_name o "content.js")
    with (if String.eqb (contentLang o) "ts"
          then "content.ts" else "content.js").
  destruct (includes "background" _), (includes "content" _),
    (includes "options" _), (devtools_materialized o),
    (includes "popup" _), (useSrcFolder o);
    split_ifs; vm_compute; reflexivity.
Qed.

(** With a popup language the question offers, the plan holds one file
    for each of background, content, options and materialized devtools,
    two for the popup (its source and [popup.html]) and the manifest. *)
Theorem file_plan_size (o : Options) :
  includes (popupLang o) ["html"; "ts"; "react"] = true ->
  List.length (file_plan o) =
  Nat.b2n (includes "background" (additionalFeatures o))
  + Nat.b2n (includes "content" (additionalFeatures o))
  + Nat.b2n (includes "options" (additionalFeatures o))
  + Nat.b2n (devtools_materialized o)
  + 2 * Nat.b2n (includes "popup" (additionalFeatures o))
  + 1.
Proof.
  intros Hlang.
  rewrite <- (length_map fst), file_plan_paths, length_app, length_map.
  unfold source_names, popup_source_names.
  cbn [includes existsb] in Hlang. rewrite orb_false_r in Hlang.
  destruct (includes "background" _), (includes "content" _),
    (includes "options" _), (devtools_materialized o),
    (includes "popup" _); try reflexivity;
    destruct (String.eqb (popupLang o) "html"); try reflexivity;
    destruct (String.eqb (popupLang o) "ts"); try reflexivity;
    destruct (String.eqb (popupLang o) "react"); try reflexivity;
    discriminate.
Qed.

Lemma file_plan_size_witness :
  List.length (file_plan (Examples.all_features 2)) = 7.
Proof.
  apply (file_plan_size (Examples.all_features 2)). reflexivity.
Defined.

(** A popup language outside the three the question offers gives a
    [popup.html] that is empty and no popup source (the chain of lines 303
    to 352 has no final else). *)
Theorem unknown_popup_language (o : Options) (m : obj json) :
  includes "popup" (additionalFeatures o) = true ->
  includes (popupLang o) ["html"; "ts"; "react"] = false ->
  files (popup_page o m) = [(filePath o "popup.html", Text "")].
Proof.
  intros Hpopup Hlang.
  cbn [includes existsb] in Hlang. rewrite orb_false_r in Hlang.
  apply orb_false_elim in Hlang as [H1 Hlang].
  apply orb_false_elim in Hlang as [H2 H3].
  unfold files, popup_page, popup_source. rewrite Hpopup, H1, H2, H3.
  unfold with_jquery_cdn. destruct (includes "jquery-cdn" _); reflexivity.
Qed.

Lemma unknown_popup_language_witness :
  files (popup_page
           (with_authoring Examples.popup_in_src "vue" "js" "js" false) [])
  = [(["popup.html"], Text "")].
Proof.
  apply (unknown_popup_language
           (with_authoring Examples.popup_in_src "vue" "js" "js" false) []);
    reflexivity.
Defined.

(* ================================================================== *)
(** ** The manifest, feature by feature *)

(** The manifest depends neither on the authoring languages nor on the
    source folder: it names [background.js], [content.js] and
    [popup.html] whatever is authored and wherever it is written. *)
Theorem manifest_ignores_authoring (o : Options)
    (popup background content : string) (src : bool) :
  manifest_of (with_authoring o popup background content src) = manifest_of o.
Proof.
  rewrite !manifest_of_unfolded.
  rewrite !yields_popup_page, !yields_devtools_page, !yields_options_page,
    !yields_content_script, !yields_background_script.
  reflexivity.
Qed.

(** The service worker is declared a module exactly when "esmodules" is
    a build option, and only the version 3 background has a [type]
    (source lines 216 to 223). *)
Theorem background_module_type (o : Options) :
  field (obj_get (manifest_of o) "background") "type" =
  if includes "background" (additionalFeatures o)
     && Z.eqb (manifestVersion o) 3
     && includes "esmodules" (buildOptions o)
  then Some (JStr "module") else None.
Proof.
  rewrite manifest_of_background.
  destruct (includes "background" _), (Z.eqb _ 3), (includes "esmodules" _);
    reflexivity.
Qed.

(** The options page is named by [options_ui], opened in a tab, under
    version 3 and by [options_page] otherwise; the two never occur
    together, and neither occurs without the options feature (source
    lines 263 to 267). *)
Theorem options_entry_by_version (o : Options) :
  (includes "options" (additionalFeatures o) = false ->
   obj_get (manifest_of o) "options_ui" = None
   /\ obj_get (manifest_of o) "options_page" = None)
  /\ (includes "options" (additionalFeatures o) = true ->
      if Z.eqb (manifestVersion o) 3 then
        obj_get (manifest_of o) "options_ui"
        = Some (JObj [("page", JStr "options.html");
                      ("open_in_tab", JBool true)])
        /\ obj_get (manifest_of o) "options_page" = None
      else
        obj_get (manifest_of o) "options_page" = Some (JStr "options.html")
        /\ obj_get (manifest_of o) "options_ui" = None).
Proof.
  rewrite manifest_of_options_ui, manifest_of_options_page.
  split; intros ->; [now split|].
  destruct (Z.eqb _ 3); now split.
Qed.

(** Every manifest has exactly one of [action] (version 3) and
    [browser_action] (any other version); with the popup feature it is
    the object whose only property is [default_popup], "popup.html"
    (source lines 293 to 300 and 361 to 365). *)
Theorem popup_entry_by_version (o : Options) :
  (obj_get (manifest_of o) "action" = None
   <-> obj_get (manifest_of o) "browser_action" <> None)
  /\ (obj_get (manifest_of o) "action" <> None <-> manifestVersion o = 3%Z)
  /\ (includes "popup" (additionalFeatures o) = true ->
      obj_get (manifest_of o)
        (if Z.eqb (manifestVersion o) 3 then "action" else "browser_action")
      = Some (JObj [("default_popup", JStr "popup.html")])).
Proof.
  pose proof (manifest_of_action o) as Ha.
  pose proof (manifest_of_browser_action o) as Hb.
  rewrite <- Z.eqb_eq.
  destruct (Z.eqb (manifestVersion o) 3); rewrite Ha, Hb;
    (split; [|split]); try (intros ->; reflexivity);
    intuition congruence.
Qed.

(* ================================================================== *)
(** ** How a run ends *)

Lemma normalize_exit a e :
  normalize a = inl e -> exists message, e = Exit 1 message.
Proof.
  unfold normalize.
  destruct (extNameRaw a); [|intros [= <-]; eauto].
  destruct (extDescRaw a); [|intros [= <-]; eauto].
  destruct (versionRaw a); [|intros [= <-]; eauto].
  destruct (Nat.eqb _ 0); [intros [= <-]; eauto|discriminate].
Qed.

(** The checks in the order the script makes them; each one that fails
    ends the run through [process.exit], with its own message and code,
    before any file operation: a name that is no text, a description that
    is no text, no version, no permission (code 1 each), settings not
    confirmed (code 0, "Aborted."), and an extension directory that
    exists already (code 1).  A run that reaches the end of [main] has
    passed them all, and what it did to the file system is what
    [generate] does. *)
Theorem failed_check_exits_before_writing
    (a : Answers) (env : Env) (w : list fs_op) :
  (extNameRaw a = CancelSymbol ->
   main a env w = (Exit 1 "No extension name provided.", w))
  /\ (forall name,
        extNameRaw a = Value name -> extDescRaw a = CancelSymbol ->
        main a env w = (Exit 1 "No description provided.", w))
  /\ (forall name description,
        extNameRaw a = Value name -> extDescRaw a = Value description ->
        versionRaw a = CancelSymbol ->
        main a env w = (Exit 1 "No manifest version selected.", w))
  /\ (forall name description version,
        extNameRaw a = Value name -> extDescRaw a = Value description ->
        versionRaw a = Value version ->
        array_or_empty (permissionsRaw a) = [] ->
        main a env w = (Exit 1 "At least one permission is required.", w))
  /\ (forall o,
        normalize a = inr o -> confirmed (proceed a) = false ->
        main a env w = (Exit 0 "Aborted.", w))
  /\ (forall o,
        normalize a = inr o -> confirmed (proceed a) = true ->
        extDirExists env = true ->
        main a env w
        = (Exit 1 ("Directory " +++ dq +++ extensionName o +++ dq
                   +++ " already exists!"), w))
  /\ (fst (main a env w) = Success ->
      (exists name description version,
          extNameRaw a = Value name /\ extDescRaw a = Value description
          /\ versionRaw a = Value version)
      /\ array_or_empty (permissionsRaw a) <> []
      /\ confirmed (proceed a) = true
      /\ extDirExists env = false
      /\ exists o, normalize a = inr o
                   /\ snd (main a env w) = snd (generate o env w)).
Proof.
  repeat split.
  - intros H. unfold main, normalize. now rewrite H.
  - intros name H1 H2. unfold main, normalize. now rewrite H1, H2.
  - intros name description H1 H2 H3. unfold main, normalize.
    now rewrite H1, H2, H3.
  - intros name description version H1 H2 H3 H4. unfold main, normalize.
    now rewrite H1, H2, H3, H4.
  - intros o Hn Hp. unfold main. now rewrite Hn, Hp.
  - intros o Hn Hp Hd. unfold main. now rewrite Hn, Hp, Hd.
  - revert H. unfold main, normalize.
    destruct (extNameRaw a); [|discriminate].
    destruct (extDescRaw a); [|discriminate].
    destruct (versionRaw a); [|discriminate].
    intros _. do 3 eexists. repeat split.
  - revert H. unfold main, normalize.
    destruct (extNameRaw a); [|discriminate].
    destruct (extDescRaw a); [|discriminate].
    destruct (versionRaw a); [|discriminate].
    destruct (array_or_empty (permissionsRaw a)); [discriminate|].
    intros _. discriminate.
  - revert H. unfold main.
    destruct (normalize a) as [e|o] eqn:E;
      [apply normalize_exit in E as [msg ->]; discriminate|].
    destruct (confirmed (proceed a)); [reflexivity|discriminate].
  - revert H. unfold main.
    destruct (normalize a) as [e|o] eqn:E;
      [apply normalize_exit in E as [msg ->]; discriminate|].
    destruct (negb _); [discriminate|].
    destruct (extDirExists env); [discriminate|reflexivity].
  - revert H. unfold main.
    destruct (normalize a) as [e|o] eqn:E;
      [apply normalize_exit in E as [msg ->]; discriminate|].
    destruct (negb _); [discriminate|].
    destruct (extDirExists env); [discriminate|].
    intros _. exists o. split; [reflexivity|].
    rewrite bind_run. reflexivity.
Qed.

(* ================================================================== *)
(** ** The order of the file operations *)

Lemma writes_only_nil : writes_only [].
Proof. reflexivity. Qed.

Lemma writes_only_app w1 w2 :
  writes_only w1 -> writes_only w2 -> writes_only (w1 ++ w2).
Proof.
  unfold writes_only. intros H1 H2.
  rewrite written_app, map_app, <- H1, <- H2. reflexivity.
Qed.

Lemma writes_only_bind {A B} (c : Script A) (k : A -> Script B) :
  appends c -> (forall x, appends (k x)) ->
  writes_only (snd (c [])) -> (forall x, writes_only (snd (k x []))) ->
  writes_only (snd (bind c k [])).
Proof.
  intros Hc Hk H1 H2. rewrite bind_run.
  rewrite (snd_appends (k _) _ (Hk _)).
  apply writes_only_app; auto.
Qed.

Lemma writes_only_write p d : writes_only (snd (writeFileSync p d [])).
Proof. reflexivity. Qed.

Lemma writes_only_ret {A} (x : A) : writes_only (snd (ret x [])).
Proof. reflexivity. Qed.

Lemma writes_only_if {A} (b : bool) (c1 c2 : Script A) :
  writes_only (snd (c1 [])) -> writes_only (snd (c2 [])) ->
  writes_only (snd ((if b then c1 else c2) [])).
Proof. now destruct b. Qed.

#[local] Hint Resolve writes_only_write writes_only_ret writes_only_if
  : script.
#[local] Hint Extern 2 (writes_only (snd (bind _ _ []))) =>
  apply writes_only_bind; [| intro | | intro] : script.

Lemma writes_only_synthesize o : writes_only (snd (synthesize o [])).
Proof.
  unfold synthesize, background_script, content_script, options_page,
    devtools_page, popup_page, popup_source.
  auto 30 with script.
Qed.

Lemma writes_only_package_json o env :
  writes_only (snd (package_json o env [])).
Proof. unfold package_json. auto with script. Qed.

(** The file operations of a run, in order: the extension directory is
    made first, then "src" exactly when the source folder is used, and
    only then files are written: the plan, [package.json] if any, and
    [TODO.md] last (source lines 191 to 196 and 444). *)
Theorem directories_before_files (o : Options) (env : Env) :
  snd (generate o env []) =
  [MkdirSync []]
  ++ (if useSrcFolder o then [MkdirSync ["src"]] else [])
  ++ map write_op
       (file_plan o
        ++ files (package_json o env)
        ++ [(["TODO.md"], Text (join nl (todoLines o)))]).
Proof.
  unfold generate, file_plan, files.
  rewrite !bind_run. cbn [fst snd writeFileSync].
  rewrite (snd_appends (package_json _ _) _ (appends_package_json _ _)).
  rewrite (snd_appends (synthesize _) _ (appends_synthesize _)).
  rewrite !map_app.
  rewrite <- (writes_only_synthesize o), <- (writes_only_package_json o env).
  destruct (useSrcFolder o); cbn; now rewrite <- !app_assoc.
Qed.

Lemma filter_none {A} (f : A -> bool) (l : list A) :
  (forall x, In x l -> f x = false) -> filter f l = [].
Proof.
  induction l as [|x r IH]; intros H; [reflexivity|].
  cbn. rewrite (H x) by now left. apply IH. intros y Hy. apply H. now right.
Qed.

(** [package.json] is written exactly when there is a build option
    left, "jquery-cdn" or "esmodules" alone included; it is then written
    once, at the root, and holds the merge into the descriptor read, or
    into the empty object when none was read (source lines 372 to 406). *)
Theorem package_json_iff_build_options (o : Options) (env : Env) :
  (buildOptions o <> [] <->
   exists d, In (["package.json"], d) (written (snd (generate o env []))))
  /\ (forall d, In (["package.json"], d) (written (snd (generate o env []))) ->
        d = PackageText
              (resolve_package o
                 match existingPkg env with
                 | Some parsed => parsed
                 | None => empty_pkg
                 end))
  /\ List.length
       (filter is_package_json
          (written (snd (generate o env [])))) <= 1.
Proof.
  assert (Hplan : forall d, In (["package.json"], d)
                              (written (snd (generate o env []))) ->
                            In (["package.json"], d) (files (package_json o env))).
  { intros d. rewrite generate_written, !in_app_iff.
    intros [H | [H | [H | []]]]; [|assumption|discriminate].
    now apply file_plan_not_package_json in H. }
  assert (Hnone : filter is_package_json (file_plan o) = []).
  { apply filter_none. intros [p d] Hin. unfold is_package_json. cbn [fst].
    destruct (list_eq_dec string_dec p ["package.json"]) as [-> | _];
      [|reflexivity].
    now apply file_plan_not_package_json in Hin. }
  split; [split|split].
  - intros Hne. eexists. rewrite generate_written, !in_app_iff.
    right. left. rewrite (package_json_written _ _ Hne). now left.
  - intros (d & Hd) Hempty.
    now apply (no_package_json_without_build_options o env d).
  - intros d Hd. apply Hplan in Hd.
    destruct (buildOptions o) eqn:E.
    + rewrite package_json_skipped in Hd by assumption. contradiction.
    + rewrite package_json_written in Hd by (rewrite E; discriminate).
      destruct Hd as [[= <-] | []]. reflexivity.
  - rewrite generate_written, !filter_app, Hnone.
    unfold files, package_json. destruct (buildOptions o); cbn; lia.
Qed.

(* ================================================================== *)
(** ** What the merge adds to an empty descriptor *)

(** Merged into the empty object, the build options give: the
    TypeScript compiler only together with a bundler and only when some
    source is TypeScript or React; each bundler its two packages; jQuery
    for "jquery-npm", with its type definitions under the same language
    condition but without the compiler; and nothing for "package",
    "jquery-cdn" and "esmodules" beyond name, version and the build
    script (source lines 378 to 404). *)
Theorem fresh_package_dependencies (o : Options) :
  let merged := resolve_package o empty_pkg in
  let dev := map_or_empty (pkg_devDependencies merged) in
  let webpack := includes "bundler-webpack" (buildOptions o) in
  let rollup := includes "bundler-rollup" (buildOptions o) in
  let jquery := includes "jquery-npm" (buildOptions o) in
  pkg_version merged = Some "1.0.0"
  /\ pkg_scripts merged = Some [("build", "tsc")]
  /\ pkg_dependencies merged
     = Some (if jquery then [("jquery", "^3.6.0")] else [])
  /\ obj_get dev "typescript"
     = (if (webpack || rollup) && uses_typescript o
        then Some "^4.9.5" else None)
  /\ obj_get dev "webpack" = (if webpack then Some "^5.0.0" else None)
  /\ obj_get dev "webpack-cli" = (if webpack then Some "^4.0.0" else None)
  /\ obj_get dev "rollup" = (if rollup then Some "^2.0.0" else None)
  /\ obj_get dev "rollup-plugin-typescript2"
     = (if rollup then Some "^0.34.1" else None)
  /\ obj_get dev "@types/jquery"
     = (if jquery && uses_typescript o then Some "^3.5.14" else None)
  /\ all_among ["webpack"; "webpack-cli"; "typescript"; "rollup";
                "rollup-plugin-typescript2"; "@types/jquery"] (keys dev)
     = true.
Proof.
  unfold resolve_package, add_typescript.
  destruct (includes "bundler-webpack" _), (includes "bundler-rollup" _),
    (includes "jquery-npm" _), (uses_typescript o);
    cbv zeta; repeat split; reflexivity.
Qed.

(* ================================================================== *)
(** ** Languages of features that are not selected *)

Lemma normalize_languages a o :
  normalize a = inr o ->
  additionalFeatures o = array_or_empty (additionalFeaturesRaw a)
  /\ popupLang o
     = ask_lang (additionalFeatures o) "popup" (popupLangRaw a) "html"
  /\ backgroundLang o
     = ask_lang (additionalFeatures o) "background" (backgroundLangRaw a) "js"
  /\ contentLang o
     = ask_lang (additionalFeatures o) "content" (contentLangRaw a) "js".
Proof.
  unfold normalize.
  destruct (extNameRaw a); [|discriminate].
  destruct (extDescRaw a); [|discriminate].
  destruct (versionRaw a); [|discriminate].
  destruct (Nat.eqb _ 0); [discriminate|].
  intros [= <-]. cbn. auto.
Qed.

(** A language counts only for a selected feature: for a feature that
    is not selected, and for a cancelled language question, the language
    is the default ("html" for the popup, "js" for the scripts).  So
    options without background, content and popup never count as using
    TypeScript, whatever was answered (source lines 111 to 154). *)
Theorem languages_of_unselected_features (a : Answers) (o : Options) :
  normalize a = inr o ->
  (includes "popup" (additionalFeatures o) = false \/ popupLangRaw a = CancelSymbol
   -> popupLang o = "html")
  /\ (includes "background" (additionalFeatures o) = false
      \/ backgroundLangRaw a = CancelSymbol -> backgroundLang o = "js")
  /\ (includes "content" (additionalFeatures o) = false
      \/ contentLangRaw a = CancelSymbol -> contentLang o = "js")
  /\ (includes "popup" (additionalFeatures o) = false ->
      includes "background" (additionalFeatures o) = false ->
      includes "content" (additionalFeatures o) = false ->
      uses_typescript o = false).
Proof.
  intros Hn. destruct (normalize_languages _ _ Hn) as (_ & Hp & Hb & Hc).
  assert (Hlang : forall feature r default,
             includes feature (additionalFeatures o) = false
             \/ r = CancelSymbol ->
             ask_lang (additionalFeatures o) feature r default = default).
  { intros feature r default [H | ->]; unfold ask_lang.
    - now rewrite H.
    - now destruct (includes _ _). }
  repeat split.
  - intros H. rewrite Hp. now apply Hlang.
  - intros H. rewrite Hb. now apply Hlang.
  - intros H. rewrite Hc. now apply Hlang.
  - intros H1 H2 H3. unfold uses_typescript.
    rewrite Hp, Hb, Hc, !Hlang by auto. reflexivity.
Qed.

Lemma languages_of_unselected_features_witness :
  exists o,
    normalize Examples.stray_languages = inr o
    /\ popupLang o = "html" /\ backgroundLang o = "js" /\ contentLang o = "js"
    /\ uses_typescript o = false.
Proof.
  eexists. split; [reflexivity|].
  destruct (languages_of_unselected_features Examples.stray_languages _ eq_refl)
    as (Hp & Hb & Hc & Hts).
  split; [apply Hp; now left|].
  split; [apply Hb; now left|].
  split; [apply Hc; now left|].
  apply Hts; reflexivity.
Defined.

(* ================================================================== *)
(** ** Trimmed texts and the default package name *)

Lemma trimStart_starts s : starts_with_space (trimStart s) = false.
Proof.
  induction s as [|c r IH]; [reflexivity|].
  cbn. destruct (is_space c) eqn:E; [assumption|]. cbn. assumption.
Qed.

Lemma trimEnd_ends s : ends_with_space (trimEnd s) = false.
Proof.
  induction s as [|c r IH]; [reflexivity|].
  cbn [trimEnd]. destruct (trimEnd r) as [|c' r'] eqn:E.
  - destruct (is_space c) eqn:Ec; [reflexivity|]. cbn. assumption.
  - exact IH.
Qed.

Lemma trimEnd_starts s :
  starts_with_space s = false -> starts_with_space (trimEnd s) = false.
Proof.
  destruct s as [|c r]; [reflexivity|].
  cbn [starts_with_space trimEnd]. intros Hc.
  destruct (trimEnd r); [now rewrite Hc|assumption].
Qed.

Lemma trimStart_blank s : trimStart s = "" <-> all_chars is_space s = true.
Proof.
  induction s as [|c r IH]; [cbn; tauto|].
  cbn. destruct (is_space c); [exact IH|].
  split; discriminate.
Qed.

Lemma trimEnd_blank s : trimEnd s = "" <-> all_chars is_space s = true.
Proof.
  induction s as [|c r IH]; [cbn; tauto|].
  cbn. destruct (trimEnd r) as [|c' r'].
  - destruct (is_space c); cbn.
    + split; [intros _; now apply IH|reflexivity].
    + split; discriminate.
  - split; [discriminate|].
    intros H. apply andb_prop in H as [_ H]. apply IH in H. discriminate.
Qed.

Lemma all_space_starts s :
  all_chars is_space s = true -> starts_with_space s = false -> s = "".
Proof.
  destruct s as [|c r]; [reflexivity|].
  cbn. intros H Hc. rewrite Hc in H. discriminate.
Qed.

Lemma trim_blank s : trim s = "" <-> all_chars is_space s = true.
Proof.
  unfold trim. rewrite trimEnd_blank. split.
  - intros H. apply trimStart_blank.
    apply all_space_starts; [assumption|apply trimStart_starts].
  - intros H. apply trimStart_blank in H. now rewrite H.
Qed.

Lemma trimStart_fixed s : starts_with_space s = false -> trimStart s = s.
Proof.
  destruct s as [|c r]; [reflexivity|]. cbn. now intros ->.
Qed.

Lemma trimEnd_cons c r :
  trimEnd (String c r) =
  match trimEnd r with
  | EmptyString => if is_space c then EmptyString else String c EmptyString
  | r' => String c r'
  end.
Proof. reflexivity. Qed.

Lemma trimEnd_idempotent s : trimEnd (trimEnd s) = trimEnd s.
Proof.
  induction s as [|c r IH]; [reflexivity|].
  cbn [trimEnd]. destruct (trimEnd r) as [|c' r'] eqn:E.
  - destruct (is_space c) eqn:Ec; [reflexivity|]. cbn. now rewrite Ec.
  - rewrite trimEnd_cons, IH. reflexivity.
Qed.

Lemma all_chars_app test a b :
  all_chars test (a +++ b) = all_chars test a && all_chars test b.
Proof.
  induction a as [|c r IH]; [reflexivity|].
  cbn. now rewrite IH, andb_assoc.
Qed.

Lemma ascii_space c : is_ascii c = true -> is_space c = is_ascii_space c.
Proof.
  destruct c as [[] [] [] [] [] [] [] []]; (reflexivity || discriminate).
Qed.

Lemma all_chars_ascii_space s :
  all_chars is_ascii s = true ->
  all_chars is_space s = all_chars is_ascii_space s.
Proof.
  induction s as [|c r IH]; [reflexivity|].
  cbn. intros H. apply andb_prop in H as [Hc Hr].
  now rewrite (ascii_space _ Hc), (IH Hr).
Qed.

Lemma trimStart_split s :
  exists before, s = before +++ trimStart s /\ all_chars is_space before = true.
Proof.
  induction s as [|c r (before & Heq & Hsp)]; [now exists ""|].
  cbn [trimStart]. destruct (is_space c) eqn:E.
  - exists (String c before). cbn. now rewrite E, Hsp, <- Heq.
  - now exists "".
Qed.

Lemma trimEnd_split s :
  exists after, s = trimEnd s +++ after /\ all_chars is_space after = true.
Proof.
  induction s as [|c r (after & Heq & Hsp)]; [now exists ""|].
  rewrite trimEnd_cons. destruct (trimEnd r) as [|c' r'] eqn:Er.
  - cbn in Heq. subst after. destruct (is_space c) eqn:E.
    + exists (String c r). cbn. now rewrite E, Hsp.
    + exists r. now split.
  - exists after. split; [|assumption]. rewrite Heq at 1. reflexivity.
Qed.

Lemma trim_trimmed_from raw :
  all_chars is_ascii raw = true -> trimmed_from raw (trim raw).
Proof.
  intros Hascii. unfold trimmed_from, trim.
  destruct (trimStart_split raw) as (before & Hb & Hbs).
  destruct (trimEnd_split (trimStart raw)) as (after & Ha & Has).
  assert (Heq : raw = before +++ trimEnd (trimStart raw) +++ after).
  { now rewrite <- Ha. }
  split; [|split; [|split]].
  - exists before, after. split; [assumption|].
    rewrite Heq, !all_chars_app in Hascii.
    apply andb_prop in Hascii as [H1 H2]. apply andb_prop in H2 as [_ H3].
    now rewrite <- (all_chars_ascii_space _ H1), <- (all_chars_ascii_space _ H3).
  - apply trimEnd_starts, trimStart_starts.
  - apply trimEnd_ends.
  - rewrite <- (all_chars_ascii_space _ Hascii). apply trim_blank.
Qed.

(** For answers of ASCII characters, the name and the description that
    leave the checks are the answers without the white space (TAB, LF, VT,
    FF, CR, SP) at their two ends: what is cut off is white space only,
    what is left neither begins nor ends with white space, and it is
    empty exactly when the answer was all white space (source lines 26
    and 36). *)
Theorem options_texts_trimmed (a : Answers) (o : Options)
    (name description : string) :
  normalize a = inr o ->
  extNameRaw a = Value name ->
  extDescRaw a = Value description ->
  all_chars is_ascii name = true ->
  all_chars is_ascii description = true ->
  trimmed_from name (extensionName o)
  /\ trimmed_from description (extensionDescription o).
Proof.
  intros Hn Hname Hdesc Han Had.
  destruct (normalize_trims _ _ Hn) as (name' & description' & Hname' & Hdesc'
                                        & -> & ->).
  rewrite Hname in Hname'. injection Hname' as <-.
  rewrite Hdesc in Hdesc'. injection Hdesc' as <-.
  split; now apply trim_trimmed_from.
Qed.

Lemma options_texts_trimmed_witness :
  exists o,
    normalize Examples.stray_languages = inr o
    /\ extensionName o = "Demo"
    /\ trimmed_from "  Demo " (extensionName o)
    /\ trimmed_from "A demo extension" (extensionDescription o).
Proof.
  eexists. split; [reflexivity|]. split; [reflexivity|].
  apply (options_texts_trimmed Examples.stray_languages _
           "  Demo " "A demo extension"); reflexivity.
Defined.

Lemma lower_char_not_upper c : is_upper (lower_char c) = false.
Proof.
  destruct c as [[] [] [] [] [] [] [] []]; reflexivity.
Qed.

Lemma toLowerCase_no_upper s :
  all_chars (fun c => negb (is_upper c)) (toLowerCase s) = true.
Proof.
  induction s as [|c r IH]; [reflexivity|].
  cbn. now rewrite lower_char_not_upper, IH.
Qed.

Lemma replace_spaces_clean s : forall in_run,
  all_chars (fun c => negb (is_upper c)) s = true ->
  all_chars (fun c => negb (is_space c) && negb (is_upper c))
    (replace_spaces in_run s) = true.
Proof.
  induction s as [|c r IH]; intros in_run H; [reflexivity|].
  cbn in H. apply andb_prop in H as [Hc Hr].
  cbn. destruct (is_space c) eqn:E.
  - destruct in_run; [now apply IH|].
    cbn [all_chars]. now rewrite IH.
  - cbn [all_chars]. now rewrite E, Hc, IH.
Qed.

Lemma lower_char_keeps_space c : is_space (lower_char c) = is_space c.
Proof.
  destruct c as [[] [] [] [] [] [] [] []]; reflexivity.
Qed.

Lemma lower_char_ascii c :
  is_ascii c = true -> is_ascii (lower_char c) = true.
Proof.
  destruct c as [[] [] [] [] [] [] [] []]; (reflexivity || discriminate).
Qed.

Lemma lower_char_fixed c :
  is_ascii c = true -> is_upper c = false -> lower_char c = c.
Proof.
  destruct c as [[] [] [] [] [] [] [] []];
    intros H1 H2; (reflexivity || discriminate).
Qed.

Lemma toLowerCase_app a b :
  toLowerCase (a +++ b) = toLowerCase a +++ toLowerCase b.
Proof.
  induction a as [|c r IH]; [reflexivity|]. cbn. now rewrite IH.
Qed.

Lemma toLowerCase_length s :
  String.length (toLowerCase s) = String.length s.
Proof. induction s as [|c r IH]; [reflexivity|]. cbn. now rewrite IH. Qed.

Lemma toLowerCase_spaces s :
  all_chars is_space (toLowerCase s) = all_chars is_space s
  /\ no_space (toLowerCase s) = no_space s.
Proof.
  unfold no_space.
  induction s as [|c r [IH1 IH2]]; [now split|].
  cbn. now rewrite lower_char_keeps_space, IH1, IH2.
Qed.

Lemma toLowerCase_ascii s :
  all_chars is_ascii s = true ->
  all_chars (fun c => is_ascii c && negb (is_upper c)) (toLowerCase s) = true.
Proof.
  induction s as [|c r IH]; [reflexivity|].
  cbn [all_chars toLowerCase]. intros H. apply andb_prop in H as [Hc Hr].
  now rewrite (lower_char_ascii _ Hc), lower_char_not_upper, (IH Hr).
Qed.

Lemma toLowerCase_fixed s :
  all_chars is_ascii s = true ->
  all_chars (fun c => negb (is_space c) && negb (is_upper c)) s = true ->
  toLowerCase s = s.
Proof.
  induction s as [|c r IH]; [reflexivity|].
  cbn [all_chars toLowerCase]. intros H1 H2.
  apply andb_prop in H1 as [Hc Hr]. apply andb_prop in H2 as [Hc2 Hr2].
  apply andb_prop in Hc2 as [_ Hup]. apply negb_true_iff in Hup.
  now rewrite (lower_char_fixed _ Hc Hup), (IH Hr Hr2).
Qed.

Lemma replace_spaces_package_name s : forall in_run,
  all_chars (fun c => is_ascii c && negb (is_upper c)) s = true ->
  all_chars package_name_char (replace_spaces in_run s) = true.
Proof.
  unfold package_name_char.
  induction s as [|c r IH]; intros in_run H; [reflexivity|].
  cbn [all_chars] in H. apply andb_prop in H as [Hc Hr].
  apply andb_prop in Hc as [Ha Hu].
  cbn [replace_spaces]. destruct (is_space c) eqn:E.
  - destruct in_run; [now apply IH|].
    cbn [all_chars]. now rewrite IH.
  - cbn [all_chars]. now rewrite E, Ha, Hu, IH.
Qed.

Lemma replace_spaces_length s : forall in_run,
  String.length (replace_spaces in_run s) <= String.length s.
Proof.
  induction s as [|c r IH]; intros in_run; [reflexivity|].
  cbn. destruct (is_space c); [destruct in_run|]; cbn;
    try apply le_n_S; try apply le_S; apply IH.
Qed.

Lemma replace_spaces_no_space s : forall in_run,
  no_space s = true -> replace_spaces in_run s = s.
Proof.
  unfold no_space.
  induction s as [|c r IH]; intros in_run H; [reflexivity|].
  cbn in H. apply andb_prop in H as [Hc Hr]. apply negb_true_iff in Hc.
  cbn. now rewrite Hc, IH.
Qed.

Lemma replace_spaces_word u s :
  no_space u = true ->
  replace_spaces false (u +++ s) = u +++ replace_spaces false s.
Proof.
  unfold no_space.
  induction u as [|c r IH]; intros H; [reflexivity|].
  cbn in H. apply andb_prop in H as [Hc Hr]. apply negb_true_iff in Hc.
  cbn. now rewrite Hc, IH.
Qed.

Lemma replace_spaces_run r s :
  all_chars is_space r = true ->
  replace_spaces true (r +++ s) = replace_spaces true s.
Proof.
  induction r as [|c r' IH]; intros H; [reflexivity|].
  cbn in H. apply andb_prop in H as [Hc Hr].
  cbn. now rewrite Hc, IH.
Qed.

Lemma replace_spaces_two_words u r v :
  no_space u = true -> no_space v = true ->
  r <> "" -> all_chars is_space r = true ->
  replace_spaces false (u +++ r +++ v) = u +++ "-" +++ v.
Proof.
  intros Hu Hv Hr Hsp. rewrite (replace_spaces_word _ _ Hu). f_equal.
  destruct r as [|c r']; [contradiction|].
  cbn in Hsp. apply andb_prop in Hsp as [Hc Hr'].
  cbn. rewrite Hc, (replace_spaces_run _ _ Hr').
  now rewrite (replace_spaces_no_space _ _ Hv).
Qed.

(** For an extension name of ASCII characters, a descriptor without a
    name, or with an empty one, gets the extension name lower-cased with
    every run of white space replaced by one hyphen: it holds only ASCII
    characters, none of them white space or an upper-case letter, and is
    no longer than the extension name; an extension name without white
    space and upper-case letters is taken as it is; and two words
    separated by any run of white space give the two lower-cased words
    joined by one hyphen (source line 378). *)
Theorem default_package_name (o : Options) (pkg : PackageDescriptor) :
  all_chars is_ascii (extensionName o) = true ->
  pkg_name pkg = None \/ pkg_name pkg = Some "" ->
  exists name,
    pkg_name (resolve_package o pkg) = Some name
    /\ name = replace_spaces false (toLowerCase (extensionName o))
    /\ all_chars package_name_char name = true
    /\ String.length name <= String.length (extensionName o)
    /\ (all_chars (fun c => negb (is_space c) && negb (is_upper c))
          (extensionName o) = true ->
        name = extensionName o)
    /\ (forall u r v,
          extensionName o = u +++ r +++ v ->
          no_space u = true -> no_space v = true ->
          r <> "" -> all_chars is_space r = true ->
          name = toLowerCase u +++ "-" +++ toLowerCase v).
Proof.
  intros Hascii Hname. eexists. split; [|split; [reflexivity|]].
  { cbn. destruct Hname as [-> | ->]; reflexivity. }
  split; [apply replace_spaces_package_name, toLowerCase_ascii, Hascii|].
  split.
  { etransitivity; [apply replace_spaces_length|].
    now rewrite toLowerCase_length. }
  split.
  - intros Hplain. rewrite (toLowerCase_fixed _ Hascii Hplain).
    apply replace_spaces_no_space. unfold no_space.
    revert Hplain. clear. induction (extensionName o) as [|c r IH];
      [reflexivity|].
    cbn. intros H. apply andb_prop in H as [Hc Hr].
    apply andb_prop in Hc as [Hc _]. now rewrite Hc, IH.
  - intros u r v Heq Hu Hv Hr Hsp.
    rewrite Heq, !toLowerCase_app.
    apply replace_spaces_two_words.
    + now rewrite (proj2 (toLowerCase_spaces u)).
    + now rewrite (proj2 (toLowerCase_spaces v)).
    + destruct r; [contradiction|discriminate].
    + now rewrite (proj1 (toLowerCase_spaces r)).
Qed.

Lemma default_package_name_witness :
  exists name,
    pkg_name (resolve_package Examples.bundled empty_pkg) = Some name
    /\ name = "my-demo"
    /\ all_chars package_name_char name = true.
Proof.
  destruct (default_package_name Examples.bundled empty_pkg eq_refl
              (or_introl eq_refl))
    as (name & Hpkg & Hname & Hchars & _ & _ & Hwords).
  exists name. split; [exact Hpkg|]. split; [|exact Hchars].
  apply (Hwords "My" "  " "Demo"); (reflexivity || discriminate).
Defined.

Example default_package_name_squeezes :
  pkg_name (resolve_package Examples.bundled empty_pkg) = Some "my-demo".
Proof. reflexivity. Qed.

(* ================================================================== *)
(** ** TODO.md against what is written *)

Lemma name_in_plan_iff o n :
  n <> "" -> n <> "manifest.json" ->
  ((exists d, In (filePath o n, d) (file_plan o)) <-> In n (source_names o)).
Proof.
  intros Hne Hman. rewrite <- in_file_plan_path, file_plan_paths, in_app_iff.
  assert (Hbase : basename (filePath o n) = n).
  { rewrite filePath_name by assumption. now destruct (useSrcFolder o). }
  split.
  - intros [H | [H | []]].
    + apply in_map_iff in H as (n' & Heq & Hn').
      destruct (source_file_placement _ _ Hn') as [Hb _].
      rewrite Heq, Hbase in Hb. now subst.
    + rewrite <- H in Hbase. cbn in Hbase. congruence.
  - intros H. left. now apply in_map.
Qed.

Lemma options_name_in_sources o :
  In "options.html" (source_names o)
  <-> includes "options" (additionalFeatures o) = true.
Proof.
  unfold source_names. rewrite !in_app_iff.
  split.
  - destruct (includes "options" _); [reflexivity|].
    intros [H | [H | [H | [H | H]]]]; revert H;
      unfold popup_source_names, authored_name; split_ifs;
      cbn; intuition discriminate.
  - intros ->. do 2 right. left. now left.
Qed.

Lemma package_json_in_run_iff o env :
  (exists d, In (["package.json"], d) (written (snd (generate o env []))))
  <-> buildOptions o <> [].
Proof.
  split.
  - intros (d & Hd) Hempty.
    now apply (no_package_json_without_build_options o env d).
  - intros Hne. eexists. rewrite generate_written, !in_app_iff.
    right. left. rewrite (package_json_written _ _ Hne). now left.
Qed.

Lemma in_todoLines x o :
  In x (todoLines o) ->
  In x ["# TODO"; ""; "## Next Steps"; "---";
        "Remember: Chrome extensions require JavaScript at runtime. If you write code in TypeScript or use ES modules, make sure to compile or bundle your code appropriately."]
  \/ (includes "background" (additionalFeatures o) = true
      /\ x = "- Edit your background script ("
             +++ authored_name o "background.js" +++ ").")
  \/ (includes "content" (additionalFeatures o) = true
      /\ x = "- Edit your content script ("
             +++ authored_name o "content.js" +++ ").")
  \/ (includes "popup" (additionalFeatures o) = true
      /\ In x ["- Edit your popup HTML and JS files (popup.html and popup.js).";
               "- Edit your popup files (popup.html and popup.ts) and compile to popup.js.";
               "- Edit your popup files (popup.html and popup.tsx) and bundle to popup.js."])
  \/ (includes "options" (additionalFeatures o) = true
      /\ x = "- Edit your options page (options.html).")
  \/ (devtools_materialized o = true
      /\ x = "- Edit your DevTools page (devtools.html).")
  \/ (buildOptions o <> []
      /\ In x ["- Run `npm install` in your extension directory to install build dependencies.";
               "- Build your extension (for example, run `npm run build`) after editing your TypeScript or bundler configuration."])
  \/ (buildOptions o = []
      /\ x = "- No build dependencies configured. Set up your build process manually if needed.").
Proof.
  unfold todoLines, devtools_materialized. rewrite !in_app_iff.
  intros [H | [H | [H | [H | [H | [H | [H | H]]]]]]].
  - left. cbn in H |- *. tauto.
  - destruct (includes "background" _); [|contradiction].
    destruct H as [<- | []]. right. left. auto.
  - destruct (includes "content" _); [|contradiction].
    destruct H as [<- | []]. do 2 right. left. auto.
  - destruct (includes "popup" _); [|contradiction].
    do 3 right. left. split; [reflexivity|].
    revert H. split_ifs; cbn; tauto.
  - destruct (includes "options" _); [|contradiction].
    destruct H as [<- | []]. do 4 right. left. auto.
  - destruct (_ && _); [|contradiction].
    destruct H as [<- | []]. do 5 right. left. auto.
  - destruct (buildOptions o); cbn in H.
    + do 7 right. intuition.
    + do 6 right. left. split; [discriminate|]. cbn. tauto.
  - left. cbn in H |- *. tauto.
Qed.

(** TODO.md and the files agree: it tells to run [npm install] exactly
    when [package.json] is written, and says that no build is configured
    exactly when it is not; it points at [devtools.html] and at
    [options.html] exactly when the plan holds them; and for a selected
    background or content script it names the file that is written, the
    TypeScript source when the script is authored in TypeScript (source
    lines 408 to 444). *)
Theorem todo_matches_writes (o : Options) (env : Env) :
  (In "- Run `npm install` in your extension directory to install build dependencies."
      (todoLines o)
   <-> exists d, In (["package.json"], d) (written (snd (generate o env []))))
  /\ (In "- No build dependencies configured. Set up your build process manually if needed."
         (todoLines o)
      <-> ~ exists d,
            In (["package.json"], d) (written (snd (generate o env []))))
  /\ (In "- Edit your DevTools page (devtools.html)." (todoLines o)
      <-> exists d, In (filePath o "devtools.html", d) (file_plan o))
  /\ (In "- Edit your options page (options.html)." (todoLines o)
      <-> exists d, In (filePath o "options.html", d) (file_plan o))
  /\ (includes "background" (additionalFeatures o) = true ->
      In ("- Edit your background script ("
          +++ authored_name o "background.js" +++ ").") (todoLines o)
      /\ exists d,
           In (filePath o (authored_name o "background.js"), d) (file_plan o))
  /\ (includes "content" (additionalFeatures o) = true ->
      In ("- Edit your content script ("
          +++ authored_name o "content.js" +++ ").") (todoLines o)
      /\ exists d,
           In (filePath o (authored_name o "content.js"), d) (file_plan o)).
Proof.
  rewrite package_json_in_run_iff.
  rewrite !(name_in_plan_iff o "devtools.html"),
    !(name_in_plan_iff o "options.html") by discriminate.
  rewrite devtools_name_in_sources, options_name_in_sources.
  split; [|split; [|split; [|split; [|split]]]].
  - split.
    + intros H. apply in_todoLines in H.
      cbn in H. intuition (try discriminate; try congruence).
    + intros H. unfold todoLines. rewrite !in_app_iff.
      do 6 right. left. destruct (buildOptions o); [contradiction|now left].
  - split.
    + intros H. apply in_todoLines in H.
      cbn in H. intuition (try discriminate; try congruence).
    + intros H. unfold todoLines. rewrite !in_app_iff.
      do 6 right. left. destruct (buildOptions o); [now left|].
      elim H. discriminate.
  - split.
    + intros H. apply in_todoLines in H.
      cbn in H. intuition (try discriminate; try congruence).
    + intros H. unfold todoLines. rewrite !in_app_iff.
      do 5 right. left. unfold devtools_materialized in H. rewrite H. now left.
  - split.
    + intros H. apply in_todoLines in H.
      cbn in H. intuition (try discriminate; try congruence).
    + intros H. unfold todoLines. rewrite !in_app_iff.
      do 4 right. left. rewrite H. now left.
  - intros Hsel. split.
    + unfold todoLines. rewrite !in_app_iff. right. left.
      rewrite Hsel. now left.
    + apply in_file_plan_path. rewrite file_plan_paths, in_app_iff. left.
      apply in_map. unfold source_names. rewrite Hsel, !in_app_iff.
      left. now left.
  - intros Hsel. split.
    + unfold todoLines. rewrite !in_app_iff. do 2 right. left.
      rewrite Hsel. now left.
    + apply in_file_plan_path. rewrite file_plan_paths, in_app_iff. left.
      apply in_map. unfold source_names. rewrite Hsel, !in_app_iff.
      right. left. now left.
Qed.

(* ================================================================== *)
(** ** The generated pages *)

Lemma files_options_page o m :
  files (options_page o m) =
  if includes "options" (additionalFeatures o) then
    [(filePath o "options.html",
      Text (with_jquery_cdn o
              (html_page "Options" ["  <h1>Extension Options</h1>"])))]
  else [].
Proof.
  unfold files, options_page. destruct (includes "options" _); [|reflexivity].
  destruct (Z.eqb _ 3); reflexivity.
Qed.

Lemma files_devtools_page o m :
  files (devtools_page o m) =
  if devtools_materialized o then
    [(filePath o "devtools.html",
      Text (with_jquery_cdn o
              (html_page "DevTools" ["  <h1>DevTools Page</h1>"])))]
  else [].
Proof.
  unfold files, devtools_page, devtools_materialized.
  destruct (_ && _); reflexivity.
Qed.

Lemma files_popup_page o m :
  files (popup_page o m) =
  if includes "popup" (additionalFeatures o) then
    files (popup_source o)
    ++ [(filePath o "popup.html",
         Text (with_jquery_cdn o (fst (popup_source o []))))]
  else [].
Proof.
  unfold files, popup_page. destruct (includes "popup" _).
  - rewrite !bind_run. cbn [fst snd ret writeFileSync].
    now rewrite written_app.
  - destruct (Z.eqb _ 3); reflexivity.
Qed.

Lemma basename_filePath o n : n <> "" -> basename (filePath o n) = n.
Proof.
  intros H. rewrite filePath_name by assumption. now destruct (useSrcFolder o).
Qed.

Lemma script_file_not_page o (names : list string) p :
  incl names ["background.ts"; "background.js"; "content.ts"; "content.js";
              "popup.js"; "popup.ts"; "popup.tsx"] ->
  In p (map (filePath o) names) ->
  ~ In (basename p) ["options.html"; "devtools.html"; "popup.html"].
Proof.
  intros Hincl Hp Hbase.
  apply in_map_iff in Hp as (n & <- & Hn). apply Hincl in Hn.
  cbn [In] in Hn.
  repeat (destruct Hn as [<- | Hn];
          [rewrite basename_filePath in Hbase by discriminate;
           cbn in Hbase; intuition discriminate|]).
  contradiction.
Qed.

Lemma script_names_known o :
  incl (if includes "background" (additionalFeatures o)
        then [authored_name o "background.js"] else [])
    ["background.ts"; "background.js"; "content.ts"; "content.js";
     "popup.js"; "popup.ts"; "popup.tsx"]
  /\ incl (if includes "content" (additionalFeatures o)
           then [authored_name o "content.js"] else [])
       ["background.ts"; "background.js"; "content.ts"; "content.js";
        "popup.js"; "popup.ts"; "popup.tsx"]
  /\ incl (popup_source_names o)
       ["background.ts"; "background.js"; "content.ts"; "content.js";
        "popup.js"; "popup.ts"; "popup.tsx"].
Proof.
  unfold authored_name, popup_source_names.
  repeat split; split_ifs; intros x Hx; cbn in Hx |- *; tauto.
Qed.

(** The pages of the plan, with what they are made of. *)
Lemma html_page_in_plan o p s :
  In (p, Text s) (file_plan o) ->
  In (basename p) ["options.html"; "devtools.html"; "popup.html"] ->
  (basename p = "options.html"
   /\ s = with_jquery_cdn o
            (html_page "Options" ["  <h1>Extension Options</h1>"]))
  \/ (basename p = "devtools.html"
      /\ s = with_jquery_cdn o
               (html_page "DevTools" ["  <h1>DevTools Page</h1>"]))
  \/ (basename p = "popup.html"
      /\ s = with_jquery_cdn o (fst (popup_source o []))).
Proof.
  intros Hin Hbase. rewrite file_plan_blocks, !in_app_iff in Hin.
  destruct (script_names_known o) as (Hbg & Hcontent & Hpopup).
  destruct Hin as [H | [H | [H | [H | [H | [H | []]]]]]].
  - exfalso. apply (in_map fst) in H. rewrite paths_background_script in H.
    now apply (script_file_not_page _ _ _ Hbg H).
  - exfalso. apply (in_map fst) in H. rewrite paths_content_script in H.
    now apply (script_file_not_page _ _ _ Hcontent H).
  - rewrite files_options_page in H.
    destruct (includes "options" _); [|contradiction].
    destruct H as [[= <- <-] | []]. left.
    now rewrite basename_filePath by discriminate.
  - rewrite files_devtools_page in H.
    destruct (devtools_materialized o); [|contradiction].
    destruct H as [[= <- <-] | []]. right. left.
    now rewrite basename_filePath by discriminate.
  - rewrite files_popup_page in H.
    destruct (includes "popup" _); [|contradiction].
    apply in_app_iff in H as [H | [[= <- <-] | []]].
    + exfalso. apply (in_map fst) in H. rewrite paths_popup_source in H.
      now apply (script_file_not_page _ _ _ Hpopup H).
    + do 2 right. now rewrite basename_filePath by discriminate.
  - discriminate.
Qed.

Lemma popup_page_text o :
  includes (popupLang o) ["html"; "ts"; "react"] = true ->
  exists body,
    fst (popup_source o []) = html_page "Popup" (body ++ [popup_script_tag o])
    /\ In body [["  <h1>Hello from Popup</h1>"];
                ["  <h1>Popup (TypeScript)</h1>";
                 "  <!-- Compile popup.ts to popup.js -->"];
                ["  <div id=" +++ dq +++ "root" +++ dq +++ "></div>";
                 "  <!-- Bundle popup.tsx to popup.js -->"]].
Proof.
  intros Hlang. cbn [includes existsb] in Hlang. rewrite orb_false_r in Hlang.
  unfold popup_source.
  destruct (String.eqb (popupLang o) "html").
  { exists ["  <h1>Hello from Popup</h1>"].
    split; [reflexivity|left; reflexivity]. }
  destruct (String.eqb (popupLang o) "ts").
  { exists ["  <h1>Popup (TypeScript)</h1>";
            "  <!-- Compile popup.ts to popup.js -->"].
    split; [reflexivity|right; left; reflexivity]. }
  destruct (String.eqb (popupLang o) "react").
  { exists ["  <div id=" +++ dq +++ "root" +++ dq +++ "></div>";
            "  <!-- Bundle popup.tsx to popup.js -->"].
    split; [reflexivity|do 2 right; left; reflexivity]. }
  discriminate.
Qed.

(** With a popup language the question offers, every page of the plan
    ([options.html], [devtools.html], [popup.html]) loads jQuery from the
    CDN exactly when "jquery-cdn" is a build option, and the script of
    [popup.html] is a module exactly when "esmodules" is one; the other
    two pages never hold a module script (source lines 256 to 261, 282 to
    287, 312, 326, 340 and 353 to 358). *)
Theorem pages_follow_build_options (o : Options) (p : path) (s : string) :
  includes (popupLang o) ["html"; "ts"; "react"] = true ->
  In (p, Text s) (file_plan o) ->
  In (basename p) ["options.html"; "devtools.html"; "popup.html"] ->
  contains jquery_url s = includes "jquery-cdn" (buildOptions o)
  /\ contains ("type=" +++ dq +++ "module" +++ dq) s
     = (String.eqb (basename p) "popup.html"
        && includes "esmodules" (buildOptions o)).
Proof.
  intros Hlang Hin Hbase.
  destruct (html_page_in_plan _ _ _ Hin Hbase)
    as [[-> ->] | [[-> ->] | [-> ->]]].
  - unfold with_jquery_cdn. destruct (includes "jquery-cdn" _);
      split; vm_compute; reflexivity.
  - unfold with_jquery_cdn. destruct (includes "jquery-cdn" _);
      split; vm_compute; reflexivity.
  - destruct (popup_page_text o Hlang) as (body & -> & Hbody).
    unfold with_jquery_cdn, popup_script_tag.
    destruct (includes "jquery-cdn" _), (includes "esmodules" _);
      cbn [In] in Hbody;
      destruct Hbody as [<- | [<- | [<- | []]]];
      split; vm_compute; reflexivity.
Qed.

Lemma pages_follow_build_options_witness :
  exists s,
    In (["options.html"], Text s) (file_plan (Examples.all_features 3))
    /\ contains jquery_url s = true
    /\ contains ("type=" +++ dq +++ "module" +++ dq) s = false.
Proof.
  eexists. split; [do 2 right; left; reflexivity|].
  apply (pages_follow_build_options (Examples.all_features 3)
           ["options.html"]).
  - reflexivity.
  - do 2 right. left. reflexivity.
  - left. reflexivity.
Defined.

(* ================================================================== *)
(** ** Cancelled questions *)

(** The script tests what [confirm] gives back for truth only, and the
    symbol of a cancelled question is truthy: cancelling the final
    confirmation does not abort the run, cancelling the question about
    the source folder selects it, and cancelling the question about icons
    asks for them (source lines 81 to 83, 157, 179 to 183 and 194). *)
Theorem cancelled_confirmation_counts_as_yes (a : Answers) (o : Options)
    (env : Env) (w : list fs_op) :
  normalize a = inr o ->
  (proceed a = CancelSymbol -> extDirExists env = false ->
   fst (main a env w) = Success
   /\ snd (main a env w) = snd (generate o env w))
  /\ (useSrcFolderRaw a = CancelSymbol ->
      useSrcFolder o = true
      /\ In (MkdirSync ["src"]) (snd (generate o env [])))
  /\ (addIconsResp a = CancelSymbol ->
      forall path, icon16Raw a = Value path -> trim path <> "" ->
                   obj_get (icons o) "16" = Some (trim path)).
Proof.
  intros Hn. split; [|split].
  - intros Hp Hd.
    rewrite (run_main_generate a env o w Hn); [auto| |assumption].
    now rewrite Hp.
  - intros Hsrc.
    assert (Hflag : useSrcFolder o = true).
    { revert Hn. unfold normalize.
      destruct (extNameRaw a); [|discriminate].
      destruct (extDescRaw a); [|discriminate].
      destruct (versionRaw a); [|discriminate].
      destruct (Nat.eqb _ 0); [discriminate|].
      intros [= <-]. cbn. now rewrite Hsrc. }
    split; [assumption|].
    unfold generate. rewrite !bind_run. cbn [fst snd writeFileSync].
    rewrite (snd_appends (package_json _ _) _ (appends_package_json _ _)).
    rewrite (snd_appends (synthesize _) _ (appends_synthesize _)).
    rewrite Hflag. rewrite !in_app_iff. do 3 left. right. now left.
  - intros Hicons path Hpath Hne.
    assert (Hi : icons o = ask_icons a).
    { revert Hn. unfold normalize.
      destruct (extNameRaw a); [|discriminate].
      destruct (extDescRaw a); [|discriminate].
      destruct (versionRaw a); [|discriminate].
      destruct (Nat.eqb _ 0); [discriminate|].
      now intros [= <-]. }
    rewrite Hi. unfold ask_icons. rewrite Hicons. cbn [confirmed].
    rewrite Hpath. cbn [trimmed_or_blank].
    apply String.eqb_neq in Hne.
    assert (H16 : obj_get (add_icon [] "16" (trim path)) "16"
                  = Some (trim path)).
    { unfold add_icon. rewrite Hne. reflexivity. }
    assert (Hkeep : forall icons size icon,
               size <> "16" ->
               obj_get icons "16" = Some (trim path) ->
               obj_get (add_icon icons size icon) "16" = Some (trim path)).
    { intros icons size icon Hsize Hget. unfold add_icon.
      destruct (String.eqb icon ""); [assumption|].
      rewrite obj_get_set_other; [assumption|congruence]. }
    apply Hkeep; [discriminate|]. apply Hkeep; [discriminate|]. exact H16.
Qed.

Lemma cancelled_confirmation_counts_as_yes_witness :
  exists o,
    normalize Examples.confirmations_cancelled = inr o
    /\ fst (main Examples.confirmations_cancelled Examples.free_directory [])
       = Success
    /\ useSrcFolder o = true
    /\ obj_get (icons o) "16" = Some "icon16.png".
Proof.
  eexists. split; [reflexivity|].
  destruct (cancelled_confirmation_counts_as_yes
              Examples.confirmations_cancelled _ Examples.free_directory []
              eq_refl) as (Hrun & Hsrc & Hicons).
  split; [apply Hrun; reflexivity|].
  split; [apply Hsrc; reflexivity|].
  apply (Hicons eq_refl " icon16.png" eq_refl). discriminate.
Defined.

(** The build options that come out of the question never hold "none":
    with "none" picked they are empty, without it they are the options
    picked, and a cancelled question gives none (source lines 172 to
    176). *)
Theorem build_options_never_hold_none (r : answer (list string)) :
  ~ In "none" (ask_buildOptions r)
  /\ (forall raw, r = Value raw -> In "none" raw -> ask_buildOptions r = [])
  /\ (forall raw, r = Value raw -> ~ In "none" raw -> ask_buildOptions r = raw)
  /\ (r = CancelSymbol -> ask_buildOptions r = []).
Proof.
  split; [|split; [|split]].
  - unfold ask_buildOptions.
    destruct (includes "none" (array_or_empty r)) eqn:E; [tauto|].
    intros H. apply includes_In in H. congruence.
  - intros raw -> Hnone. now apply none_collapses.
  - intros raw -> Hnone. unfold ask_buildOptions. cbn [array_or_empty].
    destruct (includes "none" raw) eqn:E; [|reflexivity].
    apply includes_In in E. contradiction.
  - intros ->. reflexivity.
Qed.
